(** * Freelance gig scoring engine ([ai_features.py]): model and properties

    A shallow embedding of the scoring, ranking, pricing, market analysis
    and client research code of [ai_features.py], and of the eligibility
    filter of [automation.py] that feeds the ranking.

    Modelling conventions.
    - Python numbers ([int] and [float]) are exact rationals [Q]; float
      rounding error, infinities, NaN and the [OverflowError] of integers
      beyond the range of a float are outside the model.  Equalities
      between scores are therefore stated with [==] on [Q], and [round]
      decides a tie on the exact value where the code decides it on the
      binary sum; no statement below depends on the direction of a tie.
    - A gig (and the raw user profile of the pricing engine) is a Python
      [dict] with string keys: a [gmap string PyVal].  Values are dynamically
      typed ([PyVal]); an operation applied to a value of the wrong type
      raises, exactly where the Python operation would.
    - A function that can raise returns a [Result]; [try ... except Exception]
      is [try_except].
    - Strings are ASCII text: [str.lower()] is [str_lower].
    - [print] appends to an explicit output log. *)

From Stdlib Require Import QArith Qminmax Qround Lqa Lia ZArith.
From Stdlib Require Import String Ascii List Sorting.Sorted Permutation.
From stdpp Require Import gmap strings list.

Local Open Scope string_scope.
Local Open Scope list_scope.
Local Open Scope Q_scope.

(** ** Python values, exceptions and built-ins *)

Module Py.

Inductive PyVal : Type :=
| VNone
| VBool (b : bool)
| VNum (q : Q)
| VStr (s : string)
| VList (l : list PyVal).

Inductive Exn : Type := TypeError | AttributeError | ZeroDivisionError.

Inductive Result (A : Type) : Type :=
| Ok (a : A)
| Raise (e : Exn).

Arguments Ok {A} a.
Arguments Raise {A} e.

#[global] Instance Result_ret : MRet Result := λ A a, Ok a.

#[global] Instance Result_bind : MBind Result :=
  λ A B f m, match m with Ok a => f a | Raise e => Raise e end.

(** [try: body except Exception as e: handler e] *)
Definition try_except {A : Type} (body : Result A) (handler : Exn → Result A)
  : Result A :=
  match body with
  | Ok a => Ok a
  | Raise e => handler e
  end.

Definition is_ok {A : Type} (r : Result A) : bool :=
  match r with Ok _ => true | Raise _ => false end.

(** [d.get(key, dflt)] *)
Definition dict_get (d : gmap string PyVal) (key : string) (dflt : PyVal)
  : PyVal :=
  default dflt (d !! key).

(** [bool(v)] as used by [if v:] and [not v]. *)
Definition truthy (v : PyVal) : bool :=
  match v with
  | VNone => false
  | VBool b => b
  | VNum q => negb (Qeq_bool q 0)
  | VStr s => negb (String.eqb s "")
  | VList l => match l with [] => false | _ :: _ => true end
  end.

(** A value in a numeric position (operand of [-], [/], [<] against a
    number, [*] by a float): numbers and booleans qualify, every other type
    makes the operator raise [TypeError]. *)
Definition py_num (v : PyVal) : Result Q :=
  match v with
  | VNum q => Ok q
  | VBool b => Ok (if b then 1 else 0)
  | _ => Raise TypeError
  end.

(** [x / y] on numbers. *)
Definition py_div (x y : Q) : Result Q :=
  if Qeq_dec y 0 then Raise ZeroDivisionError else Ok (x / y).

(** [v == 'literal'] never raises. *)
Definition py_eq_str (v : PyVal) (lit : string) : bool :=
  match v with
  | VStr s => String.eqb s lit
  | _ => false
  end.

(** [for x in v]: lists yield their elements, strings their characters,
    anything else is not iterable. *)
Definition py_iter (v : PyVal) : Result (list PyVal) :=
  match v with
  | VList l => Ok l
  | VStr s => Ok (map (λ c, VStr (String c EmptyString)) (list_ascii_of_string s))
  | _ => Raise TypeError
  end.

Definition ascii_lower (c : ascii) : ascii :=
  let n := nat_of_ascii c in
  if (65 <=? n)%nat && (n <=? 90)%nat then ascii_of_nat (n + 32) else c.

Fixpoint str_lower (s : string) : string :=
  match s with
  | EmptyString => EmptyString
  | String c s' => String (ascii_lower c) (str_lower s')
  end.

(** [v.lower()]: only strings have the method. *)
Definition py_lower (v : PyVal) : Result string :=
  match v with
  | VStr s => Ok (str_lower s)
  | _ => Raise AttributeError
  end.

(** [x in l] for a list of strings. *)
Definition py_in_list (x : string) (l : list string) : bool :=
  existsb (String.eqb x) l.

(** [[s.lower() for s in v]] *)
Definition lower_all (v : PyVal) : Result (list string) :=
  l ← py_iter v; mapM py_lower l.

(** Round to the nearest integer, ties to the even one. *)
Definition round_half_even (x : Q) : Z :=
  let f := Qfloor x in
  match Qcompare (x - inject_Z f) 0.5 with
  | Lt => f
  | Gt => (f + 1)%Z
  | Eq => if Z.even f then f else (f + 1)%Z
  end.

(** [round(x, ndigits)] *)
Definition py_round (x : Q) (ndigits : nat) : Q :=
  let scale := inject_Z (10 ^ Z.of_nat ndigits) in
  inject_Z (round_half_even (x * scale)) / scale.

(** [int(x)]: truncation towards zero. *)
Definition py_int (x : Q) : Z := Z.quot (Qnum x) (Z.pos (Qden x)).

(** [l[:n]] *)
Definition slice_to {A : Type} (l : list A) (n : Z) : list A :=
  if (0 <=? n)%Z then firstn (Z.to_nat n) l
  else firstn (Z.to_nat (Z.of_nat (length l) + n)) l.

(** [l.sort(key=key, reverse=True)]: a stable sort into descending key
    order; elements with equal keys keep their original relative order. *)
Section SortDesc.
Context {A : Type} (key : A → Q).

Fixpoint insert_desc (x : A) (l : list A) : list A :=
  match l with
  | [] => [x]
  | y :: l' =>
      if Qlt_le_dec (key x) (key y) then y :: insert_desc x l'
      else x :: y :: l'
  end.

Definition sort_desc (l : list A) : list A := foldr insert_desc [] l.

(** Descending key order. *)
Definition desc (a b : A) : Prop := key b <= key a.

End SortDesc.

End Py.

Import Py.

(** ** Data models *)

Inductive Reason : Type :=
| ExcellentSkillMatch (pct : Z)
| GoodSkillMatch (pct : Z)
| ModerateSkillMatch (pct : Z)
| ExcellentBudgetAlignment
| BudgetBelowTarget
| HighQualityClient
| LimitedClientHistory
| LowCompetition
| HighCompetition
| HighWinProbability (pct : Z)
| LowerWinProbability (pct : Z).

Record GigRecommendation : Type := {
  gig_id : PyVal;
  title : PyVal;
  platform : PyVal;
  recommendation_score : Q;
  win_probability : Q;
  optimal_bid_amount : Q;
  reasoning : list Reason;
  risk_level : string;
  estimated_competition : Z;
  client_quality_score : Q;
  suggested_approach : string
}.

Inductive Action : Type :=
| NoRecentData (skill : string)
| HighDemand (skill : string)
| SolidDemand (skill : string)
| LowerDemand (skill : string).

Record MarketInsight : Type := {
  skill : string;
  demand_score : Q;
  average_rate : Q;
  rate_trend : string;
  competition_level : string;
  growth_projection : Q;
  top_platforms : list PyVal;
  recommended_action : Action
}.

(** One line written by [print] in the handler of [recommend_gigs]: the id
    of the gig that was skipped and the exception that was caught. *)
Record LogLine : Type := { skipped_id : PyVal; caught : Exn }.

(** ** [class AIGigRecommender] *)

Module AIGigRecommender.

(** The attributes set by [__init__]. *)
Record t : Type := {
  user_skills : gset string;
  user_rate_min : Q;
  user_rate_max : Q;
  user_experience : Q;
  success_rate : Q
}.

(** [__init__] applied to a profile with the given skills, rates, years of
    experience and success rate in percent. *)
Definition init (skills : list string) (hourly_rate_min hourly_rate_max
  years_experience success_rate_pct : Q) : t :=
  {| user_skills := list_to_set (map str_lower skills);
     user_rate_min := hourly_rate_min;
     user_rate_max := hourly_rate_max;
     user_experience := years_experience;
     success_rate := success_rate_pct / 100 |}.

Definition _calculate_skill_match (self : t) (gig : gmap string PyVal)
  : Result Q :=
  lowered ← lower_all (dict_get gig "skills_required" (VList []));
  let required_skills : gset string := list_to_set lowered in
  if bool_decide (required_skills = ∅) then Ok 0.5
  else
    let matches := size (user_skills self ∩ required_skills) in
    let total := size required_skills in
    let bonus :=
      Qmin 0.2 (inject_Z (Z.of_nat (size (user_skills self ∖ required_skills))) * 0.05) in
    let base_score :=
      if (0 <? total)%nat
      then inject_Z (Z.of_nat matches) / inject_Z (Z.of_nat total)
      else 0 in
    Ok (Qmin 1.0 (base_score + bonus)).

Definition _calculate_rate_compatibility (self : t) (gig : gmap string PyVal)
  : Result Q :=
  let gig_budget_min := dict_get gig "budget_min" (VNum 0) in
  let gig_budget_max := dict_get gig "budget_max" (VNum 0) in
  if negb (truthy gig_budget_max) then Ok 0.5
  else
    budget_max ← py_num gig_budget_max;
    let estimated_hourly :=
      if py_eq_str (dict_get gig "project_type" VNone) "fixed"
      then budget_max / 40
      else budget_max in
    if Qlt_le_dec estimated_hourly (user_rate_min self) then
      ratio ← py_div estimated_hourly (user_rate_min self);
      Ok (Qmax 0.0 ratio)
    else if Qlt_le_dec (user_rate_max self) estimated_hourly then
      Ok 1.0
    else
      frac ← py_div (estimated_hourly - user_rate_min self)
                    (user_rate_max self - user_rate_min self);
      Ok (0.8 + 0.2 * frac).

Definition _estimate_client_quality (self : t) (gig : gmap string PyVal)
  : Result Q :=
  let rating := dict_get gig "client_rating" (VNum 0) in
  let reviews := dict_get gig "client_reviews" (VNum 0) in
  base_score ←
    (if truthy rating
     then r ← py_num rating; Ok ((r - 3.5) / 1.5)
     else Ok 0.5);
  n ← py_num reviews;
  let reliability_bonus :=
    if Qlt_le_dec 50 n then 0.1
    else if Qlt_le_dec 20 n then 0.05
    else if Qlt_le_dec n 5 then - 0.1
    else 0 in
  Ok (Qmax 0.0 (Qmin 1.0 (base_score + reliability_bonus))).

Definition _estimate_competition (self : t) (gig : gmap string PyVal)
  : Result Z :=
  let proposals := dict_get gig "proposals_count" (VNum 0) in
  skill_match ← _calculate_skill_match self gig;
  rate_match ← _calculate_rate_compatibility self gig;
  let multiplier :=
    if Qlt_le_dec 0.7 skill_match
    then (if Qlt_le_dec 0.7 rate_match then 1.5 else 1.0)
    else 1.0 in
  p ← py_num proposals;
  Ok (py_int (p * multiplier)).

Definition _predict_win_probability (self : t) (gig : gmap string PyVal)
  (skill_match : Q) (competition : Z) : Q :=
  let base_prob := skill_match * 0.4 in
  let competition_factor :=
    if (competition <? 5)%Z then 0.3
    else if (competition <? 10)%Z then 0.2
    else if (competition <? 20)%Z then 0.1
    else 0.05 in
  let success_factor := success_rate self * 0.2 in
  let exp_factor := Qmin 0.1 (user_experience self / 100) in
  let total_prob := base_prob + competition_factor + success_factor + exp_factor in
  Qmin 0.95 (Qmax 0.05 total_prob).

Definition _calculate_optimal_bid (self : t) (gig : gmap string PyVal)
  (win_prob : Q) : Result Q :=
  let gig_budget_max := dict_get gig "budget_max" (VNum 0) in
  let gig_budget_min := dict_get gig "budget_min" (VNum 0) in
  if negb (truthy gig_budget_max) then Ok (user_rate_min self)
  else
    budget_max ← py_num gig_budget_max;
    budget_min ← py_num gig_budget_min;
    let optimal :=
      if Qlt_le_dec 0.7 win_prob then budget_min + (budget_max - budget_min) * 0.3
      else if Qlt_le_dec 0.5 win_prob then budget_min + (budget_max - budget_min) * 0.5
      else budget_min + (budget_max - budget_min) * 0.7 in
    let fixed := py_eq_str (dict_get gig "project_type" VNone) "fixed" in
    let hourly_equivalent := if fixed then optimal / 40 else optimal in
    if Qlt_le_dec hourly_equivalent (user_rate_min self) then
      Ok (if fixed then user_rate_min self * 40 else user_rate_min self)
    else Ok (py_round optimal 2).

(** The [weights] dictionary of [_calculate_recommendation_score]. *)
Record Weights : Type := {
  w_skill_match : Q;
  w_rate_match : Q;
  w_client_quality : Q;
  w_win_probability : Q;
  w_competition : Q
}.

Definition weights : Weights :=
  {| w_skill_match := 0.25;
     w_rate_match := 0.20;
     w_client_quality := 0.20;
     w_win_probability := 0.25;
     w_competition := 0.10 |}.

Definition _calculate_recommendation_score (self : t) (skill_match rate_match
  client_quality : Q) (competition : Z) (win_prob : Q) : Q :=
  let competition_score := Qmax 0 (1 - inject_Z competition / 50) in
  let score :=
    w_skill_match weights * skill_match +
    w_rate_match weights * rate_match +
    w_client_quality weights * client_quality +
    w_win_probability weights * win_prob +
    w_competition weights * competition_score in
  py_round score 3.

(** [f"{x*100:.0f}"] *)
Definition percent (x : Q) : Z := round_half_even (x * 100).

Definition _generate_reasoning (self : t) (gig : gmap string PyVal)
  (skill_match rate_match client_quality : Q) (competition : Z) (win_prob : Q)
  : list Reason :=
  (if Qlt_le_dec skill_match 0.8
   then (if Qlt_le_dec skill_match 0.6
         then [ModerateSkillMatch (percent skill_match)]
         else [GoodSkillMatch (percent skill_match)])
   else [ExcellentSkillMatch (percent skill_match)])
  ++ (if Qlt_le_dec rate_match 0.8
      then (if Qlt_le_dec rate_match 0.5 then [BudgetBelowTarget] else [])
      else [ExcellentBudgetAlignment])
  ++ (if Qlt_le_dec client_quality 0.8
      then (if Qlt_le_dec client_quality 0.5 then [LimitedClientHistory] else [])
      else [HighQualityClient])
  ++ (if (competition <? 5)%Z then [LowCompetition]
      else if (20 <? competition)%Z then [HighCompetition] else [])
  ++ (if Qlt_le_dec win_prob 0.7
      then (if Qlt_le_dec win_prob 0.3
            then [LowerWinProbability (percent win_prob)] else [])
      else [HighWinProbability (percent win_prob)]).

Definition _assess_risk_level (self : t) (client_quality : Q) (competition : Z)
  (win_prob : Q) : string :=
  let risk_score :=
    ((if Qlt_le_dec client_quality 0.5 then 2 else 0)
     + (if (20 <? competition)%Z then 2 else 0)
     + (if Qlt_le_dec win_prob 0.3 then 1 else 0))%Z in
  if (4 <=? risk_score)%Z then "high"
  else if (2 <=? risk_score)%Z then "medium"
  else "low".

Definition _suggest_approach (self : t) (gig : gmap string PyVal) (win_prob : Q)
  (competition : Z) : string :=
  if (if Qlt_le_dec 0.7 win_prob then (competition <? 10)%Z else false) then
    "Submit a strong proposal highlighting your expertise. You have a great chance!"
  else if Qlt_le_dec 0.5 win_prob then
    "Emphasize your unique value proposition and relevant experience."
  else if (20 <? competition)%Z then
    "Differentiate yourself with a unique approach or special offer. Consider a competitive rate."
  else
    "This is competitive. Focus on demonstrating clear ROI and past results.".

(** The body of the [try] block of [recommend_gigs]: everything that is
    computed for one gig. *)
Definition evaluate_gig (self : t) (gig : gmap string PyVal)
  : Result GigRecommendation :=
  skill_match ← _calculate_skill_match self gig;
  rate_match ← _calculate_rate_compatibility self gig;
  client_quality ← _estimate_client_quality self gig;
  competition ← _estimate_competition self gig;
  let win_prob := _predict_win_probability self gig skill_match competition in
  optimal_bid ← _calculate_optimal_bid self gig win_prob;
  let rec_score :=
    _calculate_recommendation_score self skill_match rate_match client_quality
      competition win_prob in
  let reasoning :=
    _generate_reasoning self gig skill_match rate_match client_quality
      competition win_prob in
  let risk_level := _assess_risk_level self client_quality competition win_prob in
  let approach := _suggest_approach self gig win_prob competition in
  Ok {| gig_id := dict_get gig "id" (VStr "");
        title := dict_get gig "title" (VStr "");
        platform := dict_get gig "platform" (VStr "");
        recommendation_score := rec_score;
        win_probability := win_prob;
        optimal_bid_amount := optimal_bid;
        reasoning := reasoning;
        risk_level := risk_level;
        estimated_competition := competition;
        client_quality_score := client_quality;
        suggested_approach := approach |}.

(** One iteration of the [for gig in available_gigs] loop, on the pair of
    the [recommendations] list and the output written so far. *)
Definition recommend_step (self : t)
  (st : list GigRecommendation * list LogLine) (gig : gmap string PyVal)
  : Result (list GigRecommendation * list LogLine) :=
  try_except
    (recommendation ← evaluate_gig self gig;
     Ok (st.1 ++ [recommendation], st.2))
    (λ e, Ok (st.1, st.2 ++ [{| skipped_id := dict_get gig "id" (VStr "unknown");
                                caught := e |}])).

Fixpoint recommend_loop (self : t)
  (st : list GigRecommendation * list LogLine)
  (available_gigs : list (gmap string PyVal))
  : Result (list GigRecommendation * list LogLine) :=
  match available_gigs with
  | [] => Ok st
  | gig :: rest => st' ← recommend_step self st gig; recommend_loop self st' rest
  end.

(** Returns the list of recommendations together with what was printed. *)
Definition recommend_gigs (self : t) (available_gigs : list (gmap string PyVal))
  (top_n : Z) : Result (list GigRecommendation * list LogLine) :=
  st ← recommend_loop self ([], []) available_gigs;
  let recommendations := sort_desc recommendation_score st.1 in
  Ok (slice_to recommendations top_n, st.2).

End AIGigRecommender.

(** ** [class SmartPricingEngine] *)

Inductive Strategy : Type :=
| PremiumStrategy (bid : Q)
| CompetitiveStrategy (bid : Q)
| ValueStrategy (bid : Q)
| BalancedStrategy (bid : Q).

Record PricingFactors : Type := {
  factor_competition_level : string;
  skill_premium : Q;
  success_rate_factor : Q
}.

Record Pricing : Type := {
  optimal_price : Q;
  conservative_price : Q;
  aggressive_price : Q;
  recommended_strategy : Strategy;
  factors : PricingFactors;
  confidence : string
}.

Module SmartPricingEngine.

Definition premium_skills : gmap string Q :=
  list_to_map
    [("ai", 1.3); ("ml", 1.3); ("machine learning", 1.3);
     ("blockchain", 1.25); ("solidity", 1.25);
     ("rust", 1.2); ("go", 1.15);
     ("react native", 1.15); ("flutter", 1.15);
     ("devops", 1.1); ("kubernetes", 1.15)].

Definition premium_step (max_premium : Q) (skill_lower : string) : Q :=
  match premium_skills !! skill_lower with
  | Some premium => Qmax max_premium premium
  | None => max_premium
  end.

Definition _calculate_skill_premium (skills : PyVal) : Result Q :=
  lowered ← lower_all skills;
  Ok (foldl premium_step 1.0 lowered).

Definition _generate_pricing_strategy (optimal : Q) (min_budget max_budget : PyVal)
  (competition success_rate : Q) : Result Strategy :=
  if (if Qlt_le_dec competition 5
      then (if Qlt_le_dec 0.8 success_rate then true else false)
      else false)
  then Ok (PremiumStrategy optimal)
  else if Qlt_le_dec 20 competition then Ok (CompetitiveStrategy optimal)
  else
    m ← py_num max_budget;
    if Qlt_le_dec (m * 1.05) optimal then Ok (ValueStrategy optimal)
    else Ok (BalancedStrategy optimal).

Definition _calculate_pricing_confidence (budget : PyVal) (competition : Q)
  : string :=
  if truthy budget && (if Qlt_le_dec competition 15 then true else false)
  then "high"
  else if truthy budget || (if Qlt_le_dec competition 25 then true else false)
  then "medium"
  else "low".

Definition calculate_optimal_price (gig user_profile : gmap string PyVal)
  : Result Pricing :=
  let budget_min := dict_get gig "budget_min" (VNum 0) in
  let budget_max := dict_get gig "budget_max" (VNum 0) in
  let skills := dict_get gig "skills_required" (VList []) in
  let competition_raw := dict_get gig "proposals_count" (VNum 0) in
  let user_rate_min := dict_get user_profile "hourly_rate_min" (VNum 25) in
  let user_rate_max := dict_get user_profile "hourly_rate_max" (VNum 100) in
  pct ← py_num (dict_get user_profile "success_rate" (VNum 80));
  let success_rate := pct / 100 in
  base_price ←
    (if truthy budget_max
     then lo ← py_num budget_min; hi ← py_num budget_max;
          Ok (VNum ((lo + hi) / 2))
     else Ok user_rate_min);
  competition ← py_num competition_raw;
  let competition_multiplier :=
    if Qlt_le_dec competition 5 then 1.15
    else if Qlt_le_dec 20 competition then 0.90
    else 1.0 in
  let success_multiplier := 0.95 + success_rate * 0.15 in
  skill_multiplier ← _calculate_skill_premium skills;
  base ← py_num base_price;
  let optimal_price :=
    base * competition_multiplier * success_multiplier * skill_multiplier in
  bounded ←
    (if truthy budget_max
     then hi ← py_num budget_max; lo ← py_num budget_min;
          Ok (Qmax (Qmin optimal_price (hi * 1.1)) lo)
     else Ok optimal_price);
  floor ← py_num user_rate_min;
  let optimal_price := Qmax bounded floor in
  strategy ← _generate_pricing_strategy optimal_price budget_min budget_max
               competition success_rate;
  let conservative_price := optimal_price * 0.9 in
  let aggressive_price := optimal_price * 1.1 in
  Ok {| optimal_price := py_round optimal_price 2;
        conservative_price := py_round conservative_price 2;
        aggressive_price := py_round aggressive_price 2;
        recommended_strategy := strategy;
        factors :=
          {| factor_competition_level :=
               if Qlt_le_dec competition 5 then "low"
               else if Qlt_le_dec 20 competition then "high"
               else "medium";
             skill_premium := py_round ((skill_multiplier - 1) * 100) 1;
             success_rate_factor := py_round ((success_multiplier - 1) * 100) 1 |};
        confidence := _calculate_pricing_confidence budget_max competition |}.

End SmartPricingEngine.

(** ** [class MarketIntelligence] *)

Module MarketIntelligence.

(** The condition of the list comprehension that selects the relevant gigs:
    [skill.lower() in [s.lower() for s in gig.get('skills_required', [])]]. *)
Definition requires_skill (skill : string) (gig : gmap string PyVal)
  : Result bool :=
  lowered ← lower_all (dict_get gig "skills_required" (VList []));
  Ok (py_in_list (str_lower skill) lowered).

Fixpoint relevant_gigs (skill : string) (gigs : list (gmap string PyVal))
  : Result (list (gmap string PyVal)) :=
  match gigs with
  | [] => Ok []
  | gig :: rest =>
      keep ← requires_skill skill gig;
      tail ← relevant_gigs skill rest;
      Ok (if (keep : bool) then gig :: tail else tail)
  end.

(** The loop that collects [rates]. *)
Fixpoint collect_rates (relevant : list (gmap string PyVal))
  : Result (list PyVal) :=
  match relevant with
  | [] => Ok []
  | gig :: rest =>
      here ←
        (if truthy (dict_get gig "budget_max" VNone)
         then
           if py_eq_str (dict_get gig "project_type" VNone) "fixed"
           then b ← py_num (dict_get gig "budget_max" VNone); Ok [VNum (b / 40)]
           else Ok [dict_get gig "budget_max" VNone]
         else Ok []);
      tail ← collect_rates rest;
      Ok (here ++ tail)
  end.

(** [sum(values)] *)
Fixpoint py_sum (acc : Q) (values : list PyVal) : Result Q :=
  match values with
  | [] => Ok acc
  | v :: rest => x ← py_num v; py_sum (acc + x) rest
  end.

(** Equality of dictionary keys: numbers and booleans compare by value. *)
Definition py_key_eqb (a b : PyVal) : bool :=
  match a, b with
  | VNone, VNone => true
  | VStr s, VStr t => String.eqb s t
  | VNum x, VNum y => Qeq_bool x y
  | VNum x, VBool c => Qeq_bool x (if c then 1 else 0)
  | VBool c, VNum y => Qeq_bool (if c then 1 else 0) y
  | VBool c, VBool d => Bool.eqb c d
  | _, _ => false
  end.

(** [platform_counts[key] += 1] on a [defaultdict(int)] kept in insertion
    order; a list is not hashable. *)
Fixpoint increment (key : PyVal) (counts : list (PyVal * Z))
  : list (PyVal * Z) :=
  match counts with
  | [] => [(key, 1%Z)]
  | (k, n) :: rest =>
      if py_key_eqb k key then (k, (n + 1)%Z) :: rest
      else (k, n) :: increment key rest
  end.

Fixpoint count_platforms (counts : list (PyVal * Z))
  (relevant : list (gmap string PyVal)) : Result (list (PyVal * Z)) :=
  match relevant with
  | [] => Ok counts
  | gig :: rest =>
      match dict_get gig "platform" (VStr "unknown") with
      | VList _ => Raise TypeError
      | key => count_platforms (increment key counts) rest
      end
  end.

Definition analyze_skill_demand (skill : string)
  (gigs : list (gmap string PyVal)) : Result MarketInsight :=
  relevant ← relevant_gigs skill gigs;
  match relevant with
  | [] =>
      Ok {| skill := skill;
            demand_score := 0.0;
            average_rate := 0.0;
            rate_trend := "unknown";
            competition_level := "unknown";
            growth_projection := 0.0;
            top_platforms := [];
            recommended_action := NoRecentData skill |}
  | _ :: _ =>
      let total_gigs := Z.of_nat (length gigs) in
      let skill_gigs := Z.of_nat (length relevant) in
      let demand_score :=
        Qmin 1.0 (inject_Z skill_gigs / inject_Z (Z.max 1 total_gigs) * 10) in
      rates ← collect_rates relevant;
      avg_rate ←
        (match rates with
         | [] => Ok 0.0
         | _ :: _ =>
             total ← py_sum 0 rates;
             Ok (total / inject_Z (Z.of_nat (length rates)))
         end);
      platform_counts ← count_platforms [] relevant;
      let ranked := sort_desc (λ p, inject_Z p.2) platform_counts in
      let top_platforms := map fst (firstn 3 ranked) in
      proposals ←
        py_sum 0 (map (λ gig, dict_get gig "proposals_count" (VNum 0)) relevant);
      let avg_proposals := proposals / inject_Z (Z.of_nat (length relevant)) in
      let competition :=
        if Qlt_le_dec avg_proposals 10 then "low"
        else if Qlt_le_dec avg_proposals 20 then "medium"
        else "high" in
      let recommendation :=
        if (if Qlt_le_dec 0.7 demand_score
            then (if Qlt_le_dec 60 avg_rate then true else false)
            else false)
        then HighDemand skill
        else if Qlt_le_dec 0.5 demand_score then SolidDemand skill
        else LowerDemand skill in
      Ok {| skill := skill;
            demand_score := py_round demand_score 3;
            average_rate := py_round avg_rate 2;
            rate_trend := "stable";
            competition_level := competition;
            growth_projection := 0.0;
            top_platforms := top_platforms;
            recommended_action := recommendation |}
  end.

End MarketIntelligence.

Import AIGigRecommender SmartPricingEngine MarketIntelligence.

(** [MarketIntelligence.get_market_trends]: the loop that fills the
    [trends] dictionary, one analysis per skill. *)
Fixpoint market_trends_loop (trends : gmap string MarketInsight)
  (skills : list string) (gigs : list (gmap string PyVal))
  : Result (gmap string MarketInsight) :=
  match skills with
  | [] => Ok trends
  | name :: rest =>
      insight ← analyze_skill_demand name gigs;
      market_trends_loop (<[name := insight]> trends) rest gigs
  end.

Definition get_market_trends (skills : list string)
  (gigs : list (gmap string PyVal)) : Result (gmap string MarketInsight) :=
  market_trends_loop ∅ skills gigs.

(** ** [class ClientIntelligenceSystem] *)

Module ClientIntelligenceSystem.

Inductive RedFlag : Type :=
| BelowAverageRating
| ManyProjectsFewReviews
| LowClientRating.

Inductive GreenFlag : Type :=
| ExcellentTrackRecord
| HighSpendingClient
| ExperiencedClient
| HighSatisfaction.

Inductive Verdict : Type :=
| HighlyRecommended
| ProceedWithCaution
| HighRisk
| ModerateQuality.

Record ClientIntelligence : Type := {
  client_id : PyVal;
  quality_score : Q;
  payment_reliability : Q;
  communication_score : Q;
  project_success_rate : Q;
  average_rating : PyVal;
  total_spent : PyVal;
  total_projects : PyVal;
  red_flags : list RedFlag;
  green_flags : list GreenFlag;
  recommendation : Verdict
}.

(** [(rating / 5.0) if rating else 0.5] *)
Definition rating_fraction (rating : PyVal) : Result Q :=
  if truthy rating then r ← py_num rating; Ok (r / 5.0) else Ok 0.5.

Definition _calculate_quality_score (rating reviews spent projects : PyVal)
  : Result Q :=
  rating_score ← rating_fraction rating;
  p ← py_num projects;
  let exp_score :=
    if Qlt_le_dec 50 p then 1.0
    else if Qlt_le_dec 20 p then 0.8
    else if Qlt_le_dec 5 p then 0.6
    else 0.4 in
  s ← py_num spent;
  let spend_score :=
    if Qlt_le_dec 50000 s then 1.0
    else if Qlt_le_dec 10000 s then 0.8
    else if Qlt_le_dec 1000 s then 0.6
    else 0.4 in
  n ← py_num reviews;
  let review_score :=
    if Qlt_le_dec 50 n then 1.0
    else if Qlt_le_dec 10 n then 0.7
    else 0.5 in
  let total :=
    rating_score * 0.4 + exp_score * 0.3 + spend_score * 0.2
    + review_score * 0.1 in
  Ok (py_round total 3).

Definition _estimate_payment_reliability (rating spent projects : PyVal)
  : Result Q :=
  base_score ← rating_fraction rating;
  p ← py_num projects;
  let confidence :=
    if Qlt_le_dec 20 p then 1.0
    else if Qlt_le_dec 5 p then 0.8
    else 0.6 in
  Ok (py_round (base_score * confidence) 3).

Definition _estimate_communication (rating reviews : PyVal) : Result Q :=
  base ← rating_fraction rating;
  n ← py_num reviews;
  if Qlt_le_dec 20 n then Ok base else Ok (base * 0.8).

Definition _identify_red_flags (client_data : gmap string PyVal)
  : Result (list RedFlag) :=
  let rating := dict_get client_data "rating" (VNum 0) in
  let reviews := dict_get client_data "reviews" (VNum 0) in
  let projects := dict_get client_data "total_projects" (VNum 0) in
  below_average ←
    (r ← py_num rating;
     if Qlt_le_dec r 4.0
     then n ← py_num reviews; Ok (if Qlt_le_dec 5 n then true else false)
     else Ok false);
  few_reviews ←
    (p ← py_num projects;
     if Qlt_le_dec 10 p
     then n ← py_num reviews; Ok (if Qlt_le_dec n 3 then true else false)
     else Ok false);
  low_rating ← (r ← py_num rating; Ok (if Qlt_le_dec r 3.5 then true else false));
  Ok ((if (below_average : bool) then [BelowAverageRating] else [])
      ++ (if (few_reviews : bool) then [ManyProjectsFewReviews] else [])
      ++ (if (low_rating : bool) then [LowClientRating] else [])).

Definition _identify_green_flags (client_data : gmap string PyVal)
  : Result (list GreenFlag) :=
  let rating := dict_get client_data "rating" (VNum 0) in
  let reviews := dict_get client_data "reviews" (VNum 0) in
  let spent := dict_get client_data "total_spent" (VNum 0) in
  let projects := dict_get client_data "total_projects" (VNum 0) in
  track_record ←
    (r ← py_num rating;
     if Qlt_le_dec r 4.7 then Ok false
     else n ← py_num reviews; Ok (if Qlt_le_dec 10 n then true else false));
  high_spending ←
    (s ← py_num spent; Ok (if Qlt_le_dec 50000 s then true else false));
  experienced ←
    (p ← py_num projects; Ok (if Qlt_le_dec 50 p then true else false));
  satisfied ←
    (r ← py_num rating; Ok (if Qlt_le_dec r 4.5 then false else true));
  Ok ((if (track_record : bool) then [ExcellentTrackRecord] else [])
      ++ (if (high_spending : bool) then [HighSpendingClient] else [])
      ++ (if (experienced : bool) then [ExperiencedClient] else [])
      ++ (if (satisfied : bool) then [HighSatisfaction] else [])).

Definition _generate_client_recommendation (quality : Q)
  (red : list RedFlag) (green : list GreenFlag) : Verdict :=
  if (if Qlt_le_dec quality 0.8 then false
      else match red with [] => true | _ :: _ => false end)
  then HighlyRecommended
  else if (if Qlt_le_dec quality 0.6 then false else (length red <? 2)%nat)
  then ProceedWithCaution
  else if (if Qlt_le_dec quality 0.4 then true else (2 <? length red)%nat)
  then HighRisk
  else ModerateQuality.

Definition research_client (client_data : gmap string PyVal)
  : Result ClientIntelligence :=
  let client_id := dict_get client_data "id" (VStr "unknown") in
  let rating := dict_get client_data "rating" (VNum 0) in
  let reviews := dict_get client_data "reviews" (VNum 0) in
  let total_spent := dict_get client_data "total_spent" (VNum 0) in
  let total_projects := dict_get client_data "total_projects" (VNum 0) in
  quality ← _calculate_quality_score rating reviews total_spent total_projects;
  payment ← _estimate_payment_reliability rating total_spent total_projects;
  communication ← _estimate_communication rating reviews;
  success ← rating_fraction rating;
  red ← _identify_red_flags client_data;
  green ← _identify_green_flags client_data;
  let verdict := _generate_client_recommendation quality red green in
  Ok {| client_id := client_id;
        quality_score := quality;
        payment_reliability := payment;
        communication_score := communication;
        project_success_rate := success;
        average_rating := rating;
        total_spent := total_spent;
        total_projects := total_projects;
        red_flags := red;
        green_flags := green;
        recommendation := verdict |}.

End ClientIntelligenceSystem.

(** ** [class AutoBiddingAgent] ([automation.py]): the eligibility filter *)

Module AutoBiddingAgent.

Record AutoBidConfig : Type := {
  enabled : bool;
  min_match_score : Q;
  max_bids_per_day : Z;
  min_budget : Q;
  max_budget : Q;
  preferred_platforms : option (list string);
  auto_apply : bool;
  required_skills : option (list string)
}.

(** [bool(l)] for an optional list: [None] and [[]] are false. *)
Definition nonempty (l : option (list string)) : bool :=
  match l with
  | Some (_ :: _) => true
  | _ => false
  end.

(** [v in l] for a list of strings [l]. *)
Definition py_in_strings (v : PyVal) (l : list string) : bool :=
  existsb (py_eq_str v) l.

(** The body of the loop of [_filter_eligible_gigs]: [true] when the gig
    is appended, [false] when the loop continues without it. *)
Definition eligible (config : AutoBidConfig) (gig : gmap string PyVal)
  : Result bool :=
  let budget_max := dict_get gig "budget_max" (VNum 0) in
  outside ←
    (if truthy budget_max
     then b ← py_num budget_max;
          Ok (if Qlt_le_dec b (min_budget config) then true
              else if Qlt_le_dec (max_budget config) b then true else false)
     else Ok false);
  if (outside : bool) then Ok false
  else if nonempty (preferred_platforms config)
          && negb (py_in_strings (dict_get gig "platform" VNone)
                     (default [] (preferred_platforms config)))
  then Ok false
  else if nonempty (required_skills config)
  then
    gig_skills ← lower_all (dict_get gig "skills_required" (VList []));
    let has_required :=
      existsb (λ req, py_in_list (str_lower req) gig_skills)
        (default [] (required_skills config)) in
    Ok has_required
  else Ok true.

Fixpoint _filter_eligible_gigs (config : AutoBidConfig)
  (gigs : list (gmap string PyVal)) : Result (list (gmap string PyVal)) :=
  match gigs with
  | [] => Ok []
  | gig :: rest =>
      keep ← eligible config gig;
      tail ← _filter_eligible_gigs config rest;
      Ok (if (keep : bool) then gig :: tail else tail)
  end.

End AutoBiddingAgent.

Import ClientIntelligenceSystem AutoBiddingAgent.

(** ** Reference formulas, in the words of the specification *)

Definition clamp (lo hi x : Q) : Q := Qmax lo (Qmin hi x).

Definition competition_tier (competition : Z) : Q :=
  if (competition <? 5)%Z then 0.3
  else if (competition <? 10)%Z then 0.2
  else if (competition <? 20)%Z then 0.1
  else 0.05.

Definition win_probability_formula (skill_match : Q) (competition : Z)
  (profile_success_rate years : Q) : Q :=
  clamp 0.05 0.95
    (0.4 * skill_match + competition_tier competition
     + 0.2 * profile_success_rate + Qmin 0.1 (years / 100)).

Definition recommendation_formula (skill_match rate_match client_quality
  win_prob : Q) (competition : Z) : Q :=
  0.25 * skill_match + 0.20 * rate_match + 0.20 * client_quality
  + 0.25 * win_prob + 0.10 * Qmax 0 (1 - inject_Z competition / 50).

Definition Qnat (n : nat) : Q := inject_Z (Z.of_nat n).

(** skill_match: the case-insensitive intersection ratio plus the capped
    bonus for extra profile skills. *)
Definition skill_match_formula (profile_skills required_skills : list string)
  : Q :=
  let profile : gset string := list_to_set (map str_lower profile_skills) in
  let required : gset string := list_to_set (map str_lower required_skills) in
  Qmin 1.0
    (Qnat (size (profile ∩ required)) / Qnat (size required)
     + Qmin 0.2 (0.05 * Qnat (size (profile ∖ required)))).

(** The hourly rate a gig with the numeric [budget_max] is taken to pay:
    [budget_max / 40] for fixed-price gigs, [budget_max] otherwise. *)
Definition effective_hourly (gig : gmap string PyVal) (budget_max : Q) : Q :=
  if py_eq_str (dict_get gig "project_type" VNone) "fixed"
  then budget_max / 40
  else budget_max.

(** The recommendations of the gigs that are evaluated without error, in
    input order, and the log lines of those that raise. *)
Fixpoint scored (self : AIGigRecommender.t) (gigs : list (gmap string PyVal))
  : list GigRecommendation :=
  match gigs with
  | [] => []
  | gig :: rest =>
      match evaluate_gig self gig with
      | Ok r => r :: scored self rest
      | Raise _ => scored self rest
      end
  end.

Fixpoint skipped (self : AIGigRecommender.t) (gigs : list (gmap string PyVal))
  : list LogLine :=
  match gigs with
  | [] => []
  | gig :: rest =>
      match evaluate_gig self gig with
      | Ok _ => skipped self rest
      | Raise e =>
          {| skipped_id := dict_get gig "id" (VStr "unknown"); caught := e |}
          :: skipped self rest
      end
  end.

(** Descending order of the recommendation score. *)
Definition ranked_before (a b : GigRecommendation) : Prop :=
  recommendation_score b <= recommendation_score a.

(** The sentinel returned when no gig requires the skill. *)
Definition unknown_insight (name : string) : MarketInsight :=
  {| skill := name;
     demand_score := 0.0;
     average_rate := 0.0;
     rate_trend := "unknown";
     competition_level := "unknown";
     growth_projection := 0.0;
     top_platforms := [];
     recommended_action := NoRecentData name |}.

(** ** Sample inputs *)

Definition sample_profile : AIGigRecommender.t :=
  AIGigRecommender.init ["Python"; "django"] 50 100 5 90.

Definition sample_gig : gmap string PyVal :=
  list_to_map
    [("id", VStr "g1");
     ("skills_required", VList [VStr "python"; VStr "Django"; VStr "react"]);
     ("budget_max", VNum 3200); ("project_type", VStr "fixed");
     ("proposals_count", VNum 8);
     ("client_rating", VNum 4.8); ("client_reviews", VNum 30)].

Definition unrated_client_gig : gmap string PyVal :=
  list_to_map [("client_rating", VNum 0); ("client_reviews", VNum 10)].

Definition poorly_rated_client_gig : gmap string PyVal :=
  list_to_map [("client_rating", VNum 1); ("client_reviews", VNum 10)].

Definition well_rated_client_gig : gmap string PyVal :=
  list_to_map [("client_rating", VNum 4.5); ("client_reviews", VNum 10)].

Definition flat_rate_profile : AIGigRecommender.t :=
  AIGigRecommender.init ["python"] 50 50 3 80.

Definition hourly_gig_50 : gmap string PyVal :=
  list_to_map [("budget_max", VNum 50); ("project_type", VStr "hourly")].

Definition zero_floor_profile : AIGigRecommender.t :=
  AIGigRecommender.init ["python"] 0 100 3 80.

Definition negative_budget_gig : gmap string PyVal :=
  list_to_map [("budget_max", VNum (-40)); ("project_type", VStr "hourly")].

Definition low_budget_gig : gmap string PyVal :=
  list_to_map
    [("budget_min", VNum 10); ("budget_max", VNum 20);
     ("proposals_count", VNum 10)].

Definition default_rate_profile : gmap string PyVal :=
  list_to_map [("hourly_rate_min", VNum 25); ("success_rate", VNum 80)].

Definition spec_pricing_gig : gmap string PyVal :=
  list_to_map
    [("budget_min", VNum 800); ("budget_max", VNum 1500);
     ("proposals_count", VNum 3); ("skills_required", VList [VStr "Rust"])].

Definition spec_pricing_profile : gmap string PyVal :=
  list_to_map [("hourly_rate_min", VNum 50); ("success_rate", VNum 90)].

Definition odd_cents_gig : gmap string PyVal :=
  list_to_map
    [("budget_min", VNum 100.004); ("budget_max", VNum 100.004);
     ("proposals_count", VNum 30)].

Definition second_gig : gmap string PyVal :=
  list_to_map
    [("id", VStr "g2"); ("skills_required", VList [VStr "react"]);
     ("budget_max", VNum 60); ("proposals_count", VNum 30)].

Definition malformed_gig : gmap string PyVal :=
  list_to_map [("id", VStr "g3"); ("skills_required", VNum 7)].

Definition mixed_skills_gig : gmap string PyVal :=
  list_to_map
    [("id", VStr "g4"); ("skills_required", VList [VStr "python"; VNum 7])].

(** ** Further sample inputs *)

Definition upwork_gig : gmap string PyVal :=
  list_to_map
    [("id", VStr "u1"); ("platform", VStr "upwork");
     ("skills_required", VList [VStr "Python"; VStr "React"]);
     ("budget_max", VNum 4000); ("project_type", VStr "fixed");
     ("proposals_count", VNum 12)].

Definition fiverr_gig : gmap string PyVal :=
  list_to_map
    [("id", VStr "f1"); ("platform", VStr "fiverr");
     ("skills_required", VList [VStr "python"]);
     ("budget_max", VNum 70); ("project_type", VStr "hourly");
     ("proposals_count", VNum 4)].

Definition design_gig : gmap string PyVal :=
  list_to_map
    [("id", VStr "d1"); ("platform", VStr "upwork");
     ("skills_required", VList [VStr "Figma"]);
     ("proposals_count", VNum 2)].

Definition good_client : gmap string PyVal :=
  list_to_map
    [("id", VStr "c1"); ("rating", VNum 4.8); ("reviews", VNum 40);
     ("total_spent", VNum 60000); ("total_projects", VNum 30)].

Definition unrated_client : gmap string PyVal :=
  list_to_map
    [("id", VStr "c2"); ("reviews", VNum 0);
     ("total_spent", VNum 200); ("total_projects", VNum 1)].

Definition none_rating_client : gmap string PyVal :=
  list_to_map
    [("id", VStr "c3"); ("rating", VNone); ("reviews", VNum 3);
     ("total_spent", VNum 200); ("total_projects", VNum 1)].

Definition sample_config : AutoBidConfig :=
  {| enabled := true;
     min_match_score := 0.7;
     max_bids_per_day := 5;
     min_budget := 500;
     max_budget := 10000;
     preferred_platforms := Some ["upwork"];
     auto_apply := false;
     required_skills := Some ["PYTHON"] |}.

Definition hourly_gig_45 : gmap string PyVal :=
  list_to_map [("budget_max", VNum 45); ("project_type", VStr "hourly")].

Definition few_reviews_client_gig : gmap string PyVal :=
  list_to_map [("client_rating", VNum 4.5); ("client_reviews", VNum 3)].

(** * Properties *)

(** ** Arithmetic on [Q] *)

Ltac qdiv := unfold Qdiv in *; cbn [Qinv Qnum Qden] in *.

Ltac pose_min a b :=
  lazymatch goal with
  | _ : (a < b ∧ Qmin a b == a) ∨ _ |- _ => fail
  | _ => pose proof (Q.min_spec a b)
  end.

Ltac pose_max a b :=
  lazymatch goal with
  | _ : (a < b ∧ Qmax a b == b) ∨ _ |- _ => fail
  | _ => pose proof (Q.max_spec a b)
  end.

(** Bring the defining cases of every [Qmin] and [Qmax] in sight, for [lra]. *)
Ltac qminmax :=
  repeat match goal with
  | |- context [Qmin ?a ?b] => pose_min a b
  | |- context [Qmax ?a ?b] => pose_max a b
  | _ : context [Qmin ?a ?b] |- _ => pose_min a b
  | _ : context [Qmax ?a ?b] |- _ => pose_max a b
  end.

Lemma inject_Z_succ (k : Z) : inject_Z (k + 1) == inject_Z k + 1.
Proof. rewrite inject_Z_plus. reflexivity. Qed.

Lemma floor_bounds (y : Q) :
  inject_Z (Qfloor y) <= y ∧ y < inject_Z (Qfloor y) + 1.
Proof.
  split; [apply Qfloor_le|].
  rewrite <- inject_Z_succ. apply Qlt_floor.
Qed.

Lemma round_half_even_cases (y : Q) :
  round_half_even y = Qfloor y ∧ y - inject_Z (Qfloor y) <= 0.5
  ∨ round_half_even y = (Qfloor y + 1)%Z ∧ 0.5 <= y - inject_Z (Qfloor y).
Proof.
  unfold round_half_even.
  destruct (Qcompare_spec (y - inject_Z (Qfloor y)) 0.5) as [E|L|G].
  - destruct (Z.even (Qfloor y)); [left|right]; split; auto; rewrite E; lra.
  - left. split; auto. lra.
  - right. split; auto. lra.
Qed.

Lemma round_half_even_ge (y : Q) (k : Z) :
  inject_Z k <= y → (k <= round_half_even y)%Z.
Proof.
  intros H. apply Qfloor_resp_le in H. rewrite Qfloor_Z in H.
  destruct (round_half_even_cases y) as [[-> _]|[-> _]]; lia.
Qed.

Lemma round_half_even_le (y : Q) (k : Z) :
  y <= inject_Z k → (round_half_even y <= k)%Z.
Proof.
  intros H. pose proof (Qfloor_resp_le _ _ H) as Hf. rewrite Qfloor_Z in Hf.
  destruct (round_half_even_cases y) as [[-> _]|[-> Hhalf]]; [lia|].
  destruct (Z.eq_dec (Qfloor y) k) as [E|NE]; [|lia].
  rewrite E in Hhalf. lra.
Qed.

Lemma round_half_even_near (y : Q) :
  y - 0.5 <= inject_Z (round_half_even y) <= y + 0.5.
Proof.
  destruct (floor_bounds y) as [Hlo Hhi].
  destruct (round_half_even_cases y) as [[-> H]|[-> H]].
  - lra.
  - rewrite inject_Z_succ. lra.
Qed.

Lemma scale_pos (n : nat) : 0 < inject_Z (10 ^ Z.of_nat n).
Proof.
  change 0 with (inject_Z 0). rewrite <- Zlt_Qlt.
  apply Z.pow_pos_nonneg; lia.
Qed.

(** Rounding never crosses a number that has at most [n] decimals. *)
Lemma py_round_ge (x : Q) (n : nat) (k : Z) :
  inject_Z k / inject_Z (10 ^ Z.of_nat n) <= x →
  inject_Z k / inject_Z (10 ^ Z.of_nat n) <= py_round x n.
Proof.
  intros H. unfold py_round. pose proof (scale_pos n) as Hs.
  set (s := inject_Z (10 ^ Z.of_nat n)) in *.
  apply Qle_shift_div_l; [exact Hs|].
  assert (E : inject_Z k / s * s == inject_Z k) by (field; lra).
  rewrite E. rewrite <- Zle_Qle. apply round_half_even_ge.
  rewrite <- E. apply Qmult_le_compat_r; lra.
Qed.

Lemma py_round_le (x : Q) (n : nat) (k : Z) :
  x <= inject_Z k / inject_Z (10 ^ Z.of_nat n) →
  py_round x n <= inject_Z k / inject_Z (10 ^ Z.of_nat n).
Proof.
  intros H. unfold py_round. pose proof (scale_pos n) as Hs.
  set (s := inject_Z (10 ^ Z.of_nat n)) in *.
  apply Qle_shift_div_r; [exact Hs|].
  assert (E : inject_Z k / s * s == inject_Z k) by (field; lra).
  rewrite E. rewrite <- Zle_Qle. apply round_half_even_le.
  rewrite <- E. apply Qmult_le_compat_r; lra.
Qed.

(** Rounding to [n] decimals moves a number by at most half a unit in the
    last place. *)
Lemma py_round_near (x : Q) (n : nat) :
  x - 0.5 / inject_Z (10 ^ Z.of_nat n) <= py_round x n
  ∧ py_round x n <= x + 0.5 / inject_Z (10 ^ Z.of_nat n).
Proof.
  unfold py_round. pose proof (scale_pos n) as Hs.
  set (s := inject_Z (10 ^ Z.of_nat n)) in *.
  destruct (round_half_even_near (x * s)) as [Hlo Hhi].
  split.
  - apply Qle_shift_div_l; [exact Hs|].
    assert (E : (x - 0.5 / s) * s == x * s - 0.5) by (field; lra).
    rewrite E. exact Hlo.
  - apply Qle_shift_div_r; [exact Hs|].
    assert (E : (x + 0.5 / s) * s == x * s + 0.5) by (field; lra).
    rewrite E. exact Hhi.
Qed.

Lemma py_round3_unit (x : Q) : 0 <= x <= 1 → 0 <= py_round x 3 <= 1.
Proof.
  intros [H0 H1]. split.
  - assert (E : inject_Z 0 / inject_Z (10 ^ Z.of_nat 3) == 0) by reflexivity.
    rewrite <- E. apply py_round_ge. rewrite E. exact H0.
  - assert (E : inject_Z 1000 / inject_Z (10 ^ Z.of_nat 3) == 1) by reflexivity.
    rewrite <- E. apply py_round_le. rewrite E. exact H1.
Qed.

Lemma dict_get_lookup (d : gmap string PyVal) (key : string) (dflt v : PyVal) :
  d !! key = Some v → dict_get d key dflt = v.
Proof. intros H. unfold dict_get. rewrite H. reflexivity. Qed.

(** ** Win probability *)

Section WinProbability.
Variable self : AIGigRecommender.t.
Variable gig : gmap string PyVal.

(** C8. The win probability is the clamp to [0.05, 0.95] of
    0.4*skill_match + the competition tier bonus + 0.2*success_rate
    + min(0.1, years/100), and it always lies in [0.05, 0.95]; this holds
    for all arguments, in particular for skill_match and success rate in
    [0,1], competition >= 0 and years >= 0. *)
Theorem win_probability_is_clamped_sum (skill_match : Q) (competition : Z) :
  _predict_win_probability self gig skill_match competition
  == win_probability_formula skill_match competition
       (success_rate self) (user_experience self)
  ∧ 0.05 <= _predict_win_probability self gig skill_match competition <= 0.95.
Proof.
  unfold _predict_win_probability, win_probability_formula, clamp,
    competition_tier.
  set (tier := if (competition <? 5)%Z then _ else _).
  set (e := Qmin 0.1 (user_experience self / 100)).
  clearbody tier e. qminmax. lra.
Qed.

End WinProbability.

(** ** Recommendation score *)

Section RecommendationScore.
Variable self : AIGigRecommender.t.

Lemma competition_score_unit (competition : Z) :
  (0 <= competition)%Z → 0 <= Qmax 0 (1 - inject_Z competition / 50) <= 1.
Proof.
  intros H. rewrite Zle_Qle in H. change (inject_Z 0) with 0 in H.
  qdiv. qminmax. lra.
Qed.

(** C2, as amended. For sub-scores in [0,1] and a non-negative competition
    the recommendation score, which the code rounds to three decimals, is
    within 0.0005 of the weighted sum
    0.25*skill_match + 0.20*rate_match + 0.20*client_quality
    + 0.25*win_probability + 0.10*max(0, 1 - competition/50);
    the five weights sum to 1; and the score lies in [0,1]. *)
Theorem recommendation_score_near_weighted_sum (skill_match rate_match
  client_quality win_prob : Q) (competition : Z) :
  0 <= skill_match <= 1 → 0 <= rate_match <= 1 → 0 <= client_quality <= 1 →
  0 <= win_prob <= 1 → (0 <= competition)%Z →
  let formula :=
    recommendation_formula skill_match rate_match client_quality win_prob
      competition in
  let score :=
    _calculate_recommendation_score self skill_match rate_match client_quality
      competition win_prob in
  formula - 0.0005 <= score <= formula + 0.0005
  ∧ w_skill_match weights + w_rate_match weights + w_client_quality weights
    + w_win_probability weights + w_competition weights == 1.0
  ∧ 0 <= score <= 1.
Proof.
  intros Hs Hr Hc Hw Hn formula score.
  pose proof (competition_score_unit competition Hn) as Hcs.
  assert (Hf : 0 <= formula <= 1).
  { unfold formula, recommendation_formula.
    set (cs := Qmax 0 _) in *. clearbody cs. lra. }
  assert (E : score == py_round formula 3) by reflexivity.
  split; [|split].
  - rewrite E. destruct (py_round_near formula 3) as [Hlo Hhi].
    assert (Eh : 0.5 / inject_Z (10 ^ Z.of_nat 3) == 0.0005) by reflexivity.
    rewrite Eh in Hlo, Hhi. split; assumption.
  - reflexivity.
  - rewrite E. apply py_round3_unit. exact Hf.
Qed.

End RecommendationScore.

Lemma recommendation_score_near_weighted_sum_witness :
  let formula := recommendation_formula (2 # 3) 1 1 0.5 0 in
  let score := _calculate_recommendation_score sample_profile (2 # 3) 1 1 0 0.5 in
  formula - 0.0005 <= score <= formula + 0.0005
  ∧ w_skill_match weights + w_rate_match weights + w_client_quality weights
    + w_win_probability weights + w_competition weights == 1.0
  ∧ 0 <= score <= 1.
Proof.
  apply (recommendation_score_near_weighted_sum sample_profile (2 # 3) 1 1 0.5 0);
    first [ lia | split; vm_compute; discriminate ].
Defined.

(** The score differs from the unrounded weighted sum: two of three skills
    matched gives 19/24 = 0.79166..., returned as 0.792. *)
Lemma recommendation_score_not_exact_sum :
  (0 <= 2 # 3 <= 1 ∧ 0 <= 0.5 <= 1 ∧ (0 <= 0)%Z)
  ∧ _calculate_recommendation_score sample_profile (2 # 3) 1 1 0 0.5 == 0.792
  ∧ recommendation_formula (2 # 3) 1 1 0.5 0 == 19 # 24
  ∧ ¬ _calculate_recommendation_score sample_profile (2 # 3) 1 1 0 0.5
      == recommendation_formula (2 # 3) 1 1 0.5 0.
Proof.
  repeat split; try (vm_compute; discriminate); try reflexivity; try lia.
Qed.

(** ** Client quality *)

Section ClientQuality.
Variable self : AIGigRecommender.t.

(** The value computed for a client with a numeric rating and review count. *)
Lemma client_quality_value (gig : gmap string PyVal) (r n : Q) :
  gig !! "client_rating" = Some (VNum r) →
  gig !! "client_reviews" = Some (VNum n) →
  _estimate_client_quality self gig
  = Ok (Qmax 0.0 (Qmin 1.0
          ((if Qeq_bool r 0 then 0.5 else (r - 3.5) / 1.5)
           + (if Qlt_le_dec 50 n then 0.1
              else if Qlt_le_dec 20 n then 0.05
              else if Qlt_le_dec n 5 then - 0.1
              else 0)))).
Proof.
  intros Hr Hn. unfold _estimate_client_quality.
  rewrite (dict_get_lookup _ _ _ _ Hr), (dict_get_lookup _ _ _ _ Hn).
  cbn [truthy]. destruct (Qeq_bool r 0); reflexivity.
Qed.

(** C3, as amended. For a fixed review count and ratings 0 < r1 <= r2 <= 5
    the client-quality score of r1 is at most that of r2.  (A rating of 0
    counts as no rating and gets the neutral base 0.5.) *)
Theorem client_quality_monotone_in_rating (g1 g2 : gmap string PyVal)
  (r1 r2 n : Q) :
  g1 !! "client_rating" = Some (VNum r1) →
  g2 !! "client_rating" = Some (VNum r2) →
  g1 !! "client_reviews" = Some (VNum n) →
  g2 !! "client_reviews" = Some (VNum n) →
  0 < r1 → r1 <= r2 → r2 <= 5 →
  ∃ q1 q2,
    _estimate_client_quality self g1 = Ok q1
    ∧ _estimate_client_quality self g2 = Ok q2
    ∧ q1 <= q2.
Proof.
  intros H1 H2 N1 N2 Hpos Hle Hmax.
  eexists _, _. split; [apply (client_quality_value g1 r1 n H1 N1)|].
  split; [apply (client_quality_value g2 r2 n H2 N2)|].
  set (bonus := if Qlt_le_dec 50 n then _ else _). clearbody bonus.
  destruct (Qeq_bool r1 0) eqn:E1; [apply Qeq_bool_eq in E1; lra|].
  destruct (Qeq_bool r2 0) eqn:E2; [apply Qeq_bool_eq in E2; lra|].
  qdiv. qminmax. lra.
Qed.

End ClientQuality.

Lemma client_quality_monotone_in_rating_witness :
  ∃ q1 q2,
    _estimate_client_quality sample_profile poorly_rated_client_gig = Ok q1
    ∧ _estimate_client_quality sample_profile well_rated_client_gig = Ok q2
    ∧ q1 <= q2.
Proof.
  apply (client_quality_monotone_in_rating sample_profile
           poorly_rated_client_gig well_rated_client_gig 1 4.5 10);
    first [ reflexivity | vm_compute; discriminate ].
Defined.

(** A client without rating (rating 0) scores 0.5, a client rated 1 scores
    0: the score is not monotone in the rating from 0 upwards. *)
Lemma client_quality_not_monotone_from_zero :
  (0 <= 0 ∧ 0 <= 1 ∧ 1 <= 5)
  ∧ unrated_client_gig !! "client_reviews" = Some (VNum 10)
  ∧ poorly_rated_client_gig !! "client_reviews" = Some (VNum 10)
  ∧ unrated_client_gig !! "client_rating" = Some (VNum 0)
  ∧ poorly_rated_client_gig !! "client_rating" = Some (VNum 1)
  ∧ ∃ q1 q2,
      _estimate_client_quality sample_profile unrated_client_gig = Ok q1
      ∧ _estimate_client_quality sample_profile poorly_rated_client_gig = Ok q2
      ∧ q1 == 0.5 ∧ q2 == 0 ∧ ¬ q1 <= q2.
Proof.
  repeat split; try (vm_compute; discriminate); try reflexivity.
  eexists _, _. repeat split; try reflexivity; vm_compute; auto.
Qed.

(** ** Skill match *)

Lemma mapM_py_lower_strings (l : list string) :
  mapM py_lower (map VStr l) = Ok (map str_lower l).
Proof.
  induction l as [|x l IH]; [reflexivity|].
  cbn [map mapM]. cbn [py_lower mbind Result_bind]. rewrite IH. reflexivity.
Qed.

Lemma lower_all_strings (l : list string) :
  lower_all (VList (map VStr l)) = Ok (map str_lower l).
Proof. unfold lower_all. cbn [py_iter mbind Result_bind]. apply mapM_py_lower_strings. Qed.

Lemma Qnat_nonneg (n : nat) : 0 <= Qnat n.
Proof.
  unfold Qnat. change 0 with (inject_Z 0). rewrite <- Zle_Qle. lia.
Qed.

Lemma Qnat_pos (n : nat) : (0 < n)%nat → 0 < Qnat n.
Proof.
  intros H. unfold Qnat. change 0 with (inject_Z 0). rewrite <- Zlt_Qlt. lia.
Qed.

Lemma Qnat_le (m n : nat) : (m <= n)%nat → Qnat m <= Qnat n.
Proof. intros H. unfold Qnat. rewrite <- Zle_Qle. lia. Qed.

Lemma ratio_unit (m n : nat) :
  (m <= n)%nat → (0 < n)%nat → 0 <= Qnat m / Qnat n <= 1.
Proof.
  intros Hle Hpos. pose proof (Qnat_pos n Hpos). pose proof (Qnat_nonneg m).
  pose proof (Qnat_le m n Hle). split.
  - apply Qle_shift_div_l; lra.
  - apply Qle_shift_div_r; lra.
Qed.

(** C5. For a profile with the given skills and a gig whose required skills
    are the strings [reqs]: the skill match lies in [0,1]; it is 0.5 when the
    set of required skills is empty; otherwise it is
    min(1, |case-insensitive intersection| / |required|
           + min(0.2, 0.05 * |profile skills not required|)). *)
Theorem skill_match_is_ratio_plus_bonus (skills : list string)
  (rmin rmax years pct : Q) (gig : gmap string PyVal) (reqs : list string) :
  dict_get gig "skills_required" (VList []) = VList (map VStr reqs) →
  ∃ v,
    _calculate_skill_match (AIGigRecommender.init skills rmin rmax years pct) gig
    = Ok v
    ∧ 0 <= v <= 1
    ∧ ((list_to_set (map str_lower reqs) : gset string) = ∅ → v == 0.5)
    ∧ ((list_to_set (map str_lower reqs) : gset string) ≠ ∅ →
       v == skill_match_formula skills reqs).
Proof.
  intros Hreq. unfold _calculate_skill_match. rewrite Hreq, lower_all_strings.
  cbn [mbind Result_bind AIGigRecommender.init user_skills].
  set (P := (list_to_set (map str_lower skills) : gset string)).
  set (R := (list_to_set (map str_lower reqs) : gset string)).
  case_bool_decide as HR.
  - exists 0.5. split; [reflexivity|]. split; [lra|].
    split; [intros _; reflexivity|intros HR'; contradiction].
  - assert (Hpos : (0 < size R)%nat).
    { destruct (size R) eqn:E; [|lia]. apply size_empty_iff in E.
      exfalso. apply HR. apply leibniz_equiv. exact E. }
    assert (Hsub : (size (P ∩ R) <= size R)%nat).
    { apply subseteq_size, intersection_subseteq_r. }
    destruct (Nat.ltb_spec 0 (size R)) as [_|Hbad]; [|lia].
    pose proof (ratio_unit _ _ Hsub Hpos) as Hratio.
    pose proof (Qnat_nonneg (size (P ∖ R))) as Hextra.
    fold (Qnat (size (P ∩ R))) (Qnat (size R)) (Qnat (size (P ∖ R))).
    eexists. split; [reflexivity|]. split; [|split].
    + set (ratio := Qnat _ / Qnat _) in *. clearbody ratio. qminmax. lra.
    + intros HR'. contradiction.
    + intros _. unfold skill_match_formula. fold P R.
      set (ratio := Qnat _ / Qnat _) in *. clearbody ratio. qminmax. lra.
Qed.

Lemma skill_match_is_ratio_plus_bonus_witness :
  ∃ v,
    _calculate_skill_match (AIGigRecommender.init ["Python"; "django"] 50 100 5 90)
      sample_gig = Ok v
    ∧ 0 <= v <= 1
    ∧ ((list_to_set (map str_lower ["python"; "Django"; "react"]) : gset string) = ∅
       → v == 0.5)
    ∧ ((list_to_set (map str_lower ["python"; "Django"; "react"]) : gset string) ≠ ∅
       → v == skill_match_formula ["Python"; "django"] ["python"; "Django"; "react"]).
Proof.
  apply (skill_match_is_ratio_plus_bonus ["Python"; "django"] 50 100 5 90
           sample_gig ["python"; "Django"; "react"]).
  reflexivity.
Defined.

Example skill_match_sample :
  ∃ v, _calculate_skill_match sample_profile sample_gig = Ok v ∧ v == 2 # 3.
Proof. eexists. split; [vm_compute; reflexivity|reflexivity]. Qed.

(** ** Rate compatibility *)

Section RateCompatibility.
Variable self : AIGigRecommender.t.
Variable gig : gmap string PyVal.

Lemma rate_compatibility_no_budget :
  truthy (dict_get gig "budget_max" (VNum 0)) = false →
  _calculate_rate_compatibility self gig = Ok 0.5.
Proof. intros H. unfold _calculate_rate_compatibility. rewrite H. reflexivity. Qed.

(** With a non-zero numeric budget the three branches on the effective rate. *)
Lemma rate_compatibility_budget (b : Q) :
  dict_get gig "budget_max" (VNum 0) = VNum b → ¬ b == 0 →
  _calculate_rate_compatibility self gig
  = let e := effective_hourly gig b in
    if Qlt_le_dec e (user_rate_min self) then
      ratio ← py_div e (user_rate_min self); Ok (Qmax 0.0 ratio)
    else if Qlt_le_dec (user_rate_max self) e then Ok 1.0
    else
      frac ← py_div (e - user_rate_min self)
                    (user_rate_max self - user_rate_min self);
      Ok (0.8 + 0.2 * frac).
Proof.
  intros Hb Hnz. unfold _calculate_rate_compatibility. rewrite Hb.
  cbn [truthy py_num mbind Result_bind].
  destruct (Qeq_bool b 0) eqn:E; [apply Qeq_bool_eq in E; contradiction|].
  reflexivity.
Qed.

Lemma py_div_ok (x y : Q) : ¬ y == 0 → py_div x y = Ok (x / y).
Proof. intros H. unfold py_div. destruct (Qeq_dec y 0); [contradiction|reflexivity]. Qed.

Lemma py_div_zero (x y : Q) : y == 0 → py_div x y = Raise ZeroDivisionError.
Proof. intros H. unfold py_div. destruct (Qeq_dec y 0); [reflexivity|contradiction]. Qed.

Lemma effective_hourly_sign (b : Q) : 0 <= b → 0 <= effective_hourly gig b.
Proof.
  intros H. unfold effective_hourly.
  destruct (py_eq_str _ _); [qdiv; lra|exact H].
Qed.

(** Where the rate range is proper and positive, the score follows the
    documented formula and stays in [0,1]. *)
Lemma rate_compatibility_proper_range (b : Q) :
  dict_get gig "budget_max" (VNum 0) = VNum b → ¬ b == 0 →
  0 < user_rate_min self → user_rate_min self < user_rate_max self →
  let e := effective_hourly gig b in
  ∃ v, _calculate_rate_compatibility self gig = Ok v
    ∧ 0 <= v <= 1
    ∧ (e < user_rate_min self → v == Qmax 0 (e / user_rate_min self))
    ∧ (user_rate_max self < e → v == 1.0)
    ∧ (user_rate_min self <= e <= user_rate_max self →
       v == 0.8 + 0.2 * ((e - user_rate_min self)
                         / (user_rate_max self - user_rate_min self))).
Proof.
  intros Hb Hnz Hmin Hlt e. rewrite (rate_compatibility_budget b Hb Hnz).
  fold e. cbv zeta.
  destruct (Qlt_le_dec e (user_rate_min self)) as [Hlow|Hge].
  - rewrite py_div_ok by lra. cbn [mbind Result_bind].
    eexists. split; [reflexivity|].
    assert (Hr : e / user_rate_min self <= 1) by (apply Qle_shift_div_r; lra).
    set (r := e / user_rate_min self) in *. clearbody r.
    repeat split; intros; qminmax; lra.
  - destruct (Qlt_le_dec (user_rate_max self) e) as [Hhigh|Hle].
    + eexists. split; [reflexivity|]. repeat split; intros; lra.
    + rewrite py_div_ok by lra. cbn [mbind Result_bind].
      eexists. split; [reflexivity|].
      assert (Hf : 0 <= (e - user_rate_min self)
                        / (user_rate_max self - user_rate_min self) <= 1).
      { split; [apply Qle_shift_div_l|apply Qle_shift_div_r]; lra. }
      set (f := _ / _) in *. clearbody f.
      repeat split; intros; lra.
Qed.

End RateCompatibility.

(** C4: the failing input.  With rate_min = rate_max = 50 (allowed by
    rate_min <= rate_max) and an hourly gig paying exactly 50, the in-range
    branch divides by rate_max - rate_min = 0: no score in [0,1] is
    returned, [ZeroDivisionError] is raised. *)
Theorem rate_compatibility_equal_rates_raises :
  user_rate_min flat_rate_profile <= user_rate_max flat_rate_profile
  ∧ _calculate_rate_compatibility flat_rate_profile hourly_gig_50
    = Raise ZeroDivisionError.
Proof. split; [vm_compute; discriminate|reflexivity]. Qed.

(** C10: the failing input.  With rate_min = 0 < rate_max = 100 (so the
    precondition rate_min < rate_max holds) and an hourly gig with
    budget_max = -40, the below-minimum branch divides by rate_min = 0: the
    computation is not total, it raises [ZeroDivisionError]. *)
Lemma rate_compatibility_zero_floor_raises :
  user_rate_min zero_floor_profile < user_rate_max zero_floor_profile
  ∧ negative_budget_gig !! "budget_max" = Some (VNum (-40))
  ∧ _calculate_rate_compatibility zero_floor_profile negative_budget_gig
    = Raise ZeroDivisionError
  ∧ ¬ (∃ v, _calculate_rate_compatibility zero_floor_profile negative_budget_gig
            = Ok v).
Proof.
  repeat split; try reflexivity.
  intros [v Hv]. vm_compute in Hv. discriminate.
Qed.

Example rate_match_sample :
  ∃ v, _calculate_rate_compatibility sample_profile sample_gig = Ok v
     ∧ v == 0.92.
Proof. eexists. split; [vm_compute; reflexivity|reflexivity]. Qed.

(** ** Optimal price *)

Lemma pricing_strategy_ok (optimal : Q) (min_budget : PyVal) (m c sr : Q) :
  ∃ s, _generate_pricing_strategy optimal min_budget (VNum m) c sr = Ok s.
Proof.
  unfold _generate_pricing_strategy.
  destruct (Qlt_le_dec c 5); [destruct (Qlt_le_dec 0.8 sr)|];
    try (eexists; reflexivity);
    (destruct (Qlt_le_dec 20 c); [eexists; reflexivity|]);
    cbn [py_num mbind Result_bind];
    destruct (Qlt_le_dec (m * 1.05) optimal); eexists; reflexivity.
Qed.

Lemma py_round2_near (x : Q) : x - 0.005 <= py_round x 2 <= x + 0.005.
Proof.
  destruct (py_round_near x 2) as [Hlo Hhi].
  assert (E : 0.5 / inject_Z (10 ^ Z.of_nat 2) == 0.005) by reflexivity.
  rewrite E in Hlo, Hhi. split; assumption.
Qed.

Lemma py_round2_between (x : Q) (k1 k2 : Z) :
  inject_Z k1 <= x <= inject_Z k2 →
  inject_Z k1 <= py_round x 2 <= inject_Z k2.
Proof.
  intros [H1 H2].
  assert (E1 : inject_Z (k1 * 100) / inject_Z (10 ^ Z.of_nat 2) == inject_Z k1).
  { rewrite inject_Z_mult. change (inject_Z (10 ^ Z.of_nat 2)) with 100.
    change (inject_Z 100) with 100. field. }
  assert (E2 : inject_Z (k2 * 100) / inject_Z (10 ^ Z.of_nat 2) == inject_Z k2).
  { rewrite inject_Z_mult. change (inject_Z (10 ^ Z.of_nat 2)) with 100.
    change (inject_Z 100) with 100. field. }
  split.
  - rewrite <- E1. apply py_round_ge. rewrite E1. exact H1.
  - rewrite <- E2. apply py_round_le. rewrite E2. exact H2.
Qed.

(** C6, as amended. For a gig with numeric budget_min <= budget_max,
    budget_max > 0, and a profile whose floor rate is at most
    budget_max * 1.1: the optimal price before its final rounding lies in
    [budget_min, budget_max * 1.1] and is not below the floor rate; the
    returned optimal_price is that value rounded to two decimals, so within
    0.005 of it; and for budget_min = 800, budget_max = 1500 (any
    competition and success rate, so also 3 and 0.9) the returned price lies
    in [800, 1650]. *)
Theorem optimal_price_within_budget (gig user_profile : gmap string PyVal)
  (lo hi c floor pct : Q) (reqs : list string) :
  dict_get gig "budget_min" (VNum 0) = VNum lo →
  dict_get gig "budget_max" (VNum 0) = VNum hi →
  dict_get gig "proposals_count" (VNum 0) = VNum c →
  dict_get gig "skills_required" (VList []) = VList (map VStr reqs) →
  dict_get user_profile "hourly_rate_min" (VNum 25) = VNum floor →
  dict_get user_profile "success_rate" (VNum 80) = VNum pct →
  lo <= hi → 0 < hi → floor <= hi * 1.1 →
  ∃ r v,
    calculate_optimal_price gig user_profile = Ok r
    ∧ optimal_price r = py_round v 2
    ∧ lo <= v <= hi * 1.1
    ∧ floor <= v
    ∧ v - 0.005 <= optimal_price r <= v + 0.005
    ∧ (lo == 800 → hi == 1500 → 800 <= optimal_price r <= 1650).
Proof.
  intros Hlo Hhi Hc Hreq Hfloor Hpct Hle Hpos Hcap.
  unfold calculate_optimal_price. cbv zeta.
  rewrite Hlo, Hhi, Hc, Hreq, Hfloor, Hpct.
  assert (Ht : truthy (VNum hi) = true).
  { cbn [truthy]. destruct (Qeq_bool hi 0) eqn:E; [|reflexivity].
    apply Qeq_bool_eq in E. lra. }
  rewrite Ht. unfold _calculate_skill_premium. rewrite lower_all_strings.
  cbn [py_num mbind Result_bind].
  match goal with
  | |- context [_generate_pricing_strategy ?o ?a (VNum ?m) ?cc ?sr] =>
      destruct (pricing_strategy_ok o a m cc sr) as [s ->]
  end.
  cbn [mbind Result_bind].
  eexists _, _. split; [reflexivity|]. cbn [optimal_price].
  split; [reflexivity|].
  match goal with |- context [py_round ?v 2] => set (price := v) end.
  assert (Hv : lo <= price <= hi * 1.1 ∧ floor <= price).
  { unfold price. qminmax. lra. }
  destruct Hv as [Hv Hf].
  split; [exact Hv|]. split; [exact Hf|]. split; [apply py_round2_near|].
  intros E1 E2.
  change 800 with (inject_Z 800). change 1650 with (inject_Z 1650).
  apply py_round2_between.
  change (inject_Z 800) with 800. change (inject_Z 1650) with 1650. lra.
Qed.

Lemma optimal_price_within_budget_witness :
  ∃ r v,
    calculate_optimal_price spec_pricing_gig spec_pricing_profile = Ok r
    ∧ optimal_price r = py_round v 2
    ∧ 800 <= v <= 1500 * 1.1
    ∧ 50 <= v
    ∧ v - 0.005 <= optimal_price r <= v + 0.005
    ∧ (800 == 800 → 1500 == 1500 → 800 <= optimal_price r <= 1650).
Proof.
  apply (optimal_price_within_budget spec_pricing_gig spec_pricing_profile
           800 1500 3 50 90 ["Rust"]);
    first [ reflexivity | vm_compute; discriminate | vm_compute; reflexivity ].
Defined.

(** A budget of 10 to 20 and the default floor rate of 25: the price is the
    floor, 25, above budget_max * 1.1 = 22. *)
Lemma optimal_price_floor_above_budget :
  low_budget_gig !! "budget_min" = Some (VNum 10)
  ∧ low_budget_gig !! "budget_max" = Some (VNum 20)
  ∧ (10 <= 20 ∧ 0 < 20)
  ∧ ∃ r, calculate_optimal_price low_budget_gig default_rate_profile = Ok r
       ∧ optimal_price r == 25
       ∧ ¬ optimal_price r <= 20 * 1.1.
Proof.
  repeat split; try reflexivity; try (vm_compute; discriminate).
  eexists. split; [vm_compute; reflexivity|].
  split; [reflexivity|]. vm_compute. auto.
Qed.

(** Rounding to cents can also leave the interval by less than a cent: with
    budget_min = budget_max = 100.004 the returned price is 100.0. *)
Remark optimal_price_rounded_below_budget_min :
  ∃ r, calculate_optimal_price odd_cents_gig default_rate_profile = Ok r
     ∧ optimal_price r == 100
     ∧ ¬ 100.004 <= optimal_price r.
Proof.
  eexists. split; [vm_compute; reflexivity|].
  split; [reflexivity|]. vm_compute. auto.
Qed.

(** ** Market analysis *)

Lemma py_in_list_spec (x : string) (l : list string) :
  py_in_list x l = true ↔ In x l.
Proof.
  unfold py_in_list. rewrite existsb_exists. split.
  - intros [y [Hy E]]. apply String.eqb_eq in E. subst y. exact Hy.
  - intros H. exists x. split; [exact H|apply String.eqb_refl].
Qed.

Lemma relevant_gigs_none (name : string) (gigs : list (gmap string PyVal)) :
  Forall (λ gig, ∃ reqs,
            dict_get gig "skills_required" (VList []) = VList (map VStr reqs)
            ∧ py_in_list (str_lower name) (map str_lower reqs) = false) gigs →
  relevant_gigs name gigs = Ok [].
Proof.
  induction 1 as [|gig rest [reqs [Hreq Hnot]] _ IH]; [reflexivity|].
  cbn [relevant_gigs]. unfold requires_skill.
  rewrite Hreq, lower_all_strings. cbn [mbind Result_bind].
  rewrite IH, Hnot. reflexivity.
Qed.

(** C9, as amended. If every gig of the corpus has a list of strings (or
    nothing) as its required skills and none of these lists has the skill
    (compared case-insensitively), [analyze_skill_demand] raises nothing and
    returns the sentinel insight: demand_score 0.0, average_rate 0.0,
    competition_level "unknown", no top platforms. *)
Theorem no_match_gives_unknown_insight (name : string)
  (gigs : list (gmap string PyVal)) :
  Forall (λ gig, ∃ reqs,
            dict_get gig "skills_required" (VList []) = VList (map VStr reqs)
            ∧ py_in_list (str_lower name) (map str_lower reqs) = false) gigs →
  analyze_skill_demand name gigs = Ok (unknown_insight name)
  ∧ demand_score (unknown_insight name) = 0.0
  ∧ average_rate (unknown_insight name) = 0.0
  ∧ competition_level (unknown_insight name) = "unknown"
  ∧ top_platforms (unknown_insight name) = [].
Proof.
  intros H. unfold analyze_skill_demand.
  rewrite (relevant_gigs_none name gigs H). repeat split; reflexivity.
Qed.

Lemma no_match_gives_unknown_insight_witness :
  analyze_skill_demand "RUST" [sample_gig; second_gig]
  = Ok (unknown_insight "RUST")
  ∧ demand_score (unknown_insight "RUST") = 0.0
  ∧ average_rate (unknown_insight "RUST") = 0.0
  ∧ competition_level (unknown_insight "RUST") = "unknown"
  ∧ top_platforms (unknown_insight "RUST") = [].
Proof.
  apply (no_match_gives_unknown_insight "RUST" [sample_gig; second_gig]).
  repeat constructor.
  - exists ["python"; "Django"; "react"]. split; reflexivity.
  - exists ["react"]. split; reflexivity.
Defined.

(** No gig lists "rust", but one gig has a number among its required
    skills: the filter raises on it and no sentinel is returned. *)
Lemma no_match_raises_on_malformed_skills :
  dict_get sample_gig "skills_required" (VList [])
  = VList [VStr "python"; VStr "Django"; VStr "react"]
  ∧ dict_get mixed_skills_gig "skills_required" (VList [])
    = VList [VStr "python"; VNum 7]
  ∧ analyze_skill_demand "rust" [sample_gig; mixed_skills_gig]
    = Raise AttributeError
  ∧ analyze_skill_demand "rust" [sample_gig; mixed_skills_gig]
    ≠ Ok (unknown_insight "rust").
Proof.
  split; [reflexivity|]. split; [reflexivity|].
  assert (H : analyze_skill_demand "rust" [sample_gig; mixed_skills_gig]
              = Raise AttributeError) by (vm_compute; reflexivity).
  split; [exact H|]. rewrite H. discriminate.
Qed.

(** ** The stable descending sort *)

Section SortDescFacts.
Context {A : Type} (key : A → Q).

Lemma insert_desc_perm (x : A) (l : list A) :
  Permutation (insert_desc key x l) (x :: l).
Proof.
  induction l as [|y l IH]; cbn [insert_desc]; [reflexivity|].
  destruct (Qlt_le_dec (key x) (key y)); [|reflexivity].
  rewrite IH. apply perm_swap.
Qed.

Lemma sort_desc_perm (l : list A) : Permutation (sort_desc key l) l.
Proof.
  induction l as [|x l IH]; [reflexivity|].
  cbn [sort_desc foldr]. rewrite insert_desc_perm. constructor. exact IH.
Qed.

Lemma insert_desc_Forall (P : A → Prop) (x : A) (l : list A) :
  P x → Forall P l → Forall P (insert_desc key x l).
Proof.
  intros Hx Hl. induction Hl as [|y l Hy Hl IH]; cbn [insert_desc].
  - repeat constructor. exact Hx.
  - destruct (Qlt_le_dec (key x) (key y)); repeat constructor; auto.
Qed.

Lemma insert_desc_sorted (x : A) (l : list A) :
  StronglySorted (desc key) l → StronglySorted (desc key) (insert_desc key x l).
Proof.
  induction 1 as [|y l Hs IH Hall]; cbn [insert_desc].
  - repeat constructor.
  - destruct (Qlt_le_dec (key x) (key y)) as [Hlt|Hle].
    + constructor; [exact IH|].
      apply insert_desc_Forall; [|exact Hall]. unfold desc. lra.
    + constructor; [constructor; assumption|].
      constructor; [exact Hle|].
      eapply Forall_impl; [exact Hall|].
      unfold desc. intros z Hz. lra.
Qed.

Lemma sort_desc_sorted (l : list A) : StronglySorted (desc key) (sort_desc key l).
Proof.
  induction l as [|x l IH]; [constructor|].
  cbn [sort_desc foldr]. apply insert_desc_sorted. exact IH.
Qed.

(** Stability: among the elements with any one key value, the order of the
    input is kept. *)
Lemma insert_desc_stable (q : Q) (x : A) (l : list A) :
  List.filter (λ a, Qeq_bool (key a) q) (insert_desc key x l)
  = List.filter (λ a, Qeq_bool (key a) q) (x :: l).
Proof.
  induction l as [|y l IH]; cbn [insert_desc]; [reflexivity|].
  destruct (Qlt_le_dec (key x) (key y)) as [Hlt|Hle]; [|reflexivity].
  cbn [List.filter] in *. rewrite IH.
  destruct (Qeq_bool (key x) q) eqn:Ex; [|reflexivity].
  destruct (Qeq_bool (key y) q) eqn:Ey; [|reflexivity].
  apply Qeq_bool_eq in Ex, Ey. lra.
Qed.

Lemma sort_desc_stable (q : Q) (l : list A) :
  List.filter (λ a, Qeq_bool (key a) q) (sort_desc key l)
  = List.filter (λ a, Qeq_bool (key a) q) l.
Proof.
  induction l as [|x l IH]; [reflexivity|].
  cbn [sort_desc foldr]. rewrite insert_desc_stable.
  cbn [List.filter]. fold (sort_desc key l). rewrite IH. reflexivity.
Qed.

End SortDescFacts.

Lemma firstn_In {A : Type} (n : nat) (l : list A) (x : A) :
  In x (firstn n l) → In x l.
Proof.
  revert l. induction n as [|n IH]; intros [|y l]; cbn [firstn In]; try tauto.
  intros [->|H]; [left; reflexivity|right; apply IH; exact H].
Qed.

Lemma slice_to_incl {A : Type} (l : list A) (n : Z) (x : A) :
  In x (slice_to l n) → In x l.
Proof.
  unfold slice_to. destruct (0 <=? n)%Z; apply firstn_In.
Qed.

Lemma slice_to_all {A : Type} (l : list A) (n : Z) :
  (Z.of_nat (length l) <= n)%Z → slice_to l n = l.
Proof.
  intros H. unfold slice_to.
  destruct (Z.leb_spec 0 n) as [_|Hneg]; [|lia].
  apply firstn_all2. lia.
Qed.

Lemma slice_to_nonneg {A : Type} (l : list A) (n : Z) :
  (0 <= n)%Z → slice_to l n = firstn (Z.to_nat n) l.
Proof.
  intros H. unfold slice_to.
  destruct (Z.leb_spec 0 n) as [_|Hneg]; [reflexivity|lia].
Qed.

(** ** Ranking *)

Section Ranking.
Variable self : AIGigRecommender.t.

Lemma recommend_loop_result (gigs : list (gmap string PyVal))
  (recs : list GigRecommendation) (log : list LogLine) :
  recommend_loop self (recs, log) gigs
  = Ok (recs ++ scored self gigs, log ++ skipped self gigs).
Proof.
  revert recs log. induction gigs as [|gig rest IH]; intros recs log.
  - cbn [recommend_loop scored skipped]. rewrite !app_nil_r. reflexivity.
  - cbn [recommend_loop scored skipped]. unfold recommend_step, try_except.
    destruct (evaluate_gig self gig) as [r|e];
      cbn [mbind Result_bind fst snd]; rewrite IH, <- app_assoc; reflexivity.
Qed.

Lemma recommend_gigs_result (gigs : list (gmap string PyVal)) (top_n : Z) :
  recommend_gigs self gigs top_n
  = Ok (slice_to (sort_desc recommendation_score (scored self gigs)) top_n,
        skipped self gigs).
Proof.
  unfold recommend_gigs. rewrite recommend_loop_result.
  cbn [mbind Result_bind fst snd app]. reflexivity.
Qed.

Lemma in_scored (gigs : list (gmap string PyVal)) (r : GigRecommendation) :
  In r (scored self gigs) ↔ ∃ gig, In gig gigs ∧ evaluate_gig self gig = Ok r.
Proof.
  induction gigs as [|gig rest IH]; cbn [scored In].
  - split; [tauto|]. intros [g [[] _]].
  - destruct (evaluate_gig self gig) as [r'|e] eqn:E; cbn [In]; rewrite IH.
    + split.
      * intros [->|[g [Hg Hr]]]; [exists gig; auto|exists g; auto].
      * intros [g [[->|Hg] Hr]]; [left; congruence|right; exists g; auto].
    + split.
      * intros [g [Hg Hr]]. exists g; auto.
      * intros [g [[->|Hg] Hr]]; [congruence|exists g; auto].
Qed.

Lemma in_skipped (gigs : list (gmap string PyVal)) (gig : gmap string PyVal)
  (e : Exn) :
  In gig gigs → evaluate_gig self gig = Raise e →
  In {| skipped_id := dict_get gig "id" (VStr "unknown"); caught := e |}
     (skipped self gigs).
Proof.
  intros Hin He. induction gigs as [|g rest IH]; [destruct Hin|].
  cbn [skipped]. destruct Hin as [->|Hin].
  - rewrite He. left. reflexivity.
  - destruct (evaluate_gig self g); [|right]; apply IH; exact Hin.
Qed.

Lemma scored_length (gigs : list (gmap string PyVal)) :
  length (scored self gigs)
  = length (List.filter (λ gig, is_ok (evaluate_gig self gig)) gigs).
Proof.
  induction gigs as [|gig rest IH]; [reflexivity|].
  cbn [scored List.filter]. destruct (evaluate_gig self gig); cbn [is_ok length];
    rewrite IH; reflexivity.
Qed.

(** C1, as amended. Whatever a gig raises while it is evaluated is caught:
    [recommend_gigs] always returns, the gig is skipped (and reported on the
    output) and the remaining gigs are still scored.  The returned list is
    the first [top_n] entries of the score-sorted recommendations of exactly
    the gigs that were evaluated without error; it has a recommendation for
    every such gig when there are at most [top_n] of them. *)
Theorem recommend_gigs_isolates_failures (gigs : list (gmap string PyVal))
  (top_n : Z) :
  ∃ out log,
    recommend_gigs self gigs top_n = Ok (out, log)
    ∧ out = slice_to (sort_desc recommendation_score (scored self gigs)) top_n
    ∧ (∀ r, In r out → ∃ gig, In gig gigs ∧ evaluate_gig self gig = Ok r)
    ∧ ((Z.of_nat (length (List.filter (λ gig, is_ok (evaluate_gig self gig)) gigs))
        <= top_n)%Z →
       ∀ gig r, In gig gigs → evaluate_gig self gig = Ok r → In r out)
    ∧ (∀ gig e, In gig gigs → evaluate_gig self gig = Raise e →
         In {| skipped_id := dict_get gig "id" (VStr "unknown"); caught := e |}
            log).
Proof.
  eexists _, _. split; [apply recommend_gigs_result|].
  split; [reflexivity|]. split; [|split].
  - intros r Hr. apply slice_to_incl in Hr. apply in_scored.
    eapply Permutation_in; [apply sort_desc_perm|exact Hr].
  - intros Hn gig r Hin Hr. rewrite slice_to_all.
    + eapply Permutation_in; [symmetry; apply sort_desc_perm|].
      apply in_scored. exists gig. auto.
    + rewrite (Permutation_length (sort_desc_perm _ _)), scored_length.
      exact Hn.
  - intros gig e Hin He. apply in_skipped; assumption.
Qed.

(** C7. [recommend_gigs] is a function of its inputs (two calls agree), and
    its result is the list of the per-gig recommendations sorted by
    descending recommendation score, equal scores in input order, cut to
    [top_n] by [[:top_n]] (the first [top_n] entries for [top_n >= 0]). *)
Theorem recommend_gigs_ranked (gigs : list (gmap string PyVal)) (top_n : Z) :
  ∃ ranked log,
    recommend_gigs self gigs top_n = Ok (slice_to ranked top_n, log)
    ∧ Permutation ranked (scored self gigs)
    ∧ StronglySorted ranked_before ranked
    ∧ (∀ q, List.filter (λ r, Qeq_bool (recommendation_score r) q) ranked
            = List.filter (λ r, Qeq_bool (recommendation_score r) q)
                (scored self gigs))
    ∧ ((0 <= top_n)%Z → slice_to ranked top_n = firstn (Z.to_nat top_n) ranked)
    ∧ (∀ first second,
         recommend_gigs self gigs top_n = first →
         recommend_gigs self gigs top_n = second → first = second).
Proof.
  exists (sort_desc recommendation_score (scored self gigs)), (skipped self gigs).
  split; [apply recommend_gigs_result|].
  split; [apply sort_desc_perm|].
  split; [apply (sort_desc_sorted recommendation_score)|].
  split; [intros q; apply sort_desc_stable|].
  split; [apply slice_to_nonneg|].
  intros first second <- <-. reflexivity.
Qed.

End Ranking.

(** Two gigs are scored without error and [top_n] is 1: the second one has
    no recommendation in the returned list. *)
Lemma recommend_gigs_drops_beyond_top_n :
  ∃ r out log,
    In second_gig [sample_gig; second_gig]
    ∧ evaluate_gig sample_profile second_gig = Ok r
    ∧ recommend_gigs sample_profile [sample_gig; second_gig] 1 = Ok (out, log)
    ∧ ¬ In r out.
Proof.
  eexists _, _, _. split; [right; left; reflexivity|].
  split; [vm_compute; reflexivity|].
  split; [vm_compute; reflexivity|].
  intros [H|[]]. discriminate H.
Qed.

Example recommend_gigs_skips_malformed :
  ∃ a b,
    recommend_gigs sample_profile [second_gig; malformed_gig; sample_gig] 10
    = Ok ([a; b], [{| skipped_id := VStr "g3"; caught := TypeError |}])
    ∧ gig_id a = VStr "g1" ∧ gig_id b = VStr "g2".
Proof. eexists _, _. split; [vm_compute; reflexivity|]. split; reflexivity. Qed.

Lemma recommend_gigs_isolates_failures_witness :
  ∃ out log,
    recommend_gigs sample_profile [second_gig; malformed_gig; sample_gig] 10
    = Ok (out, log)
    ∧ (∀ gig r, In gig [second_gig; malformed_gig; sample_gig] →
         evaluate_gig sample_profile gig = Ok r → In r out)
    ∧ In {| skipped_id := VStr "g3"; caught := TypeError |} log.
Proof.
  destruct (recommend_gigs_isolates_failures sample_profile
              [second_gig; malformed_gig; sample_gig] 10)
    as (out & log & Hret & _ & _ & Hall & Hlog).
  exists out, log. split; [exact Hret|]. split.
  - apply Hall. vm_compute. discriminate.
  - apply (Hlog malformed_gig TypeError).
    + right. left. reflexivity.
    + vm_compute. reflexivity.
Defined.

Lemma recommend_gigs_ranked_witness :
  ∃ ranked log,
    recommend_gigs sample_profile [second_gig; malformed_gig; sample_gig] 1
    = Ok (firstn 1 ranked, log)
    ∧ Permutation ranked
        (scored sample_profile [second_gig; malformed_gig; sample_gig])
    ∧ StronglySorted ranked_before ranked.
Proof.
  destruct (recommend_gigs_ranked sample_profile
              [second_gig; malformed_gig; sample_gig] 1)
    as (ranked & log & Hret & Hperm & Hsorted & _ & Hcut & _).
  exists ranked, log. rewrite (Hcut ltac:(lia)) in Hret.
  split; [exact Hret|]. split; assumption.
Defined.

(** * Further properties of the scoring code *)

(** ** Truncation to an integer *)

Lemma py_int_floor (x : Q) : 0 <= x → py_int x = Qfloor x.
Proof.
  destruct x as [n d]. unfold py_int, Qfloor, Qle. cbn [Qnum Qden].
  intros H. apply Z.quot_div_nonneg; lia.
Qed.

Lemma py_int_nonneg (x : Q) : 0 <= x → (0 <= py_int x)%Z.
Proof.
  intros H. rewrite (py_int_floor x H).
  apply Qfloor_resp_le in H. exact H.
Qed.

Lemma py_int_three_halves (n : Z) :
  (0 <= n)%Z → py_int (inject_Z n * 1.5) = (3 * n / 2)%Z.
Proof.
  intros H. unfold py_int, inject_Z, Qmult. cbn [Qnum Qden].
  rewrite Z.quot_div_nonneg by lia.
  replace (n * 15)%Z with (5 * (3 * n))%Z by lia.
  change (Z.pos (1 * 10)) with (5 * 2)%Z.
  apply Z.div_mul_cancel_l; lia.
Qed.

Lemma py_int_identity (n : Z) : py_int (inject_Z n * 1.0) = n.
Proof.
  unfold py_int, inject_Z, Qmult. cbn [Qnum Qden].
  change (Z.pos (1 * 10)) with 10%Z.
  rewrite Z.quot_mul by lia. reflexivity.
Qed.

(** ** Ranges of the sub-scores, for every gig *)

Section SubScoreRanges.
Variable self : AIGigRecommender.t.
Variable gig : gmap string PyVal.

Lemma skill_match_unit (v : Q) :
  _calculate_skill_match self gig = Ok v → 0 <= v <= 1.
Proof.
  unfold _calculate_skill_match.
  destruct (lower_all _) as [lowered|e]; cbn [mbind Result_bind]; [|discriminate].
  set (R := (list_to_set lowered : gset string)).
  case_bool_decide as HR; intros [= <-]; [lra|].
  assert (Hpos : (0 < size R)%nat).
  { destruct (size R) eqn:E; [|lia]. apply size_empty_iff in E.
    exfalso. apply HR. apply leibniz_equiv. exact E. }
  assert (Hsub : (size (user_skills self ∩ R) <= size R)%nat).
  { apply subseteq_size, intersection_subseteq_r. }
  destruct (Nat.ltb_spec 0 (size R)) as [_|Hbad]; [|lia].
  pose proof (ratio_unit _ _ Hsub Hpos) as Hratio.
  pose proof (Qnat_nonneg (size (user_skills self ∖ R))) as Hextra.
  unfold Qnat in *.
  set (ratio := _ / _) in *. clearbody ratio. qminmax. lra.
Qed.

Lemma rate_compatibility_unit (v : Q) :
  0 < user_rate_min self →
  _calculate_rate_compatibility self gig = Ok v → 0 <= v <= 1.
Proof.
  intros Hmin. unfold _calculate_rate_compatibility. cbv zeta.
  destruct (truthy _); cbn [negb]; [|intros [= <-]; lra].
  destruct (py_num _) as [b|e]; cbn [mbind Result_bind]; [|discriminate].
  set (e := if py_eq_str _ _ then _ else _). clearbody e.
  destruct (Qlt_le_dec e (user_rate_min self)) as [Hlow|Hge].
  - rewrite py_div_ok by lra. cbn [mbind Result_bind]. intros [= <-].
    assert (Hr : e / user_rate_min self <= 1) by (apply Qle_shift_div_r; lra).
    set (r := e / user_rate_min self) in *. clearbody r. qminmax. lra.
  - destruct (Qlt_le_dec (user_rate_max self) e) as [Hhigh|Hle];
      [intros [= <-]; lra|].
    unfold py_div. destruct (Qeq_dec _ 0) as [Hz|Hnz];
      cbn [mbind Result_bind]; [discriminate|]. intros [= <-].
    assert (Hf : 0 <= (e - user_rate_min self)
                      / (user_rate_max self - user_rate_min self) <= 1).
    { split; [apply Qle_shift_div_l|apply Qle_shift_div_r]; lra. }
    set (f := _ / _) in *. clearbody f. lra.
Qed.

Lemma client_quality_unit (v : Q) :
  _estimate_client_quality self gig = Ok v → 0 <= v <= 1.
Proof.
  unfold _estimate_client_quality. cbv zeta.
  destruct (if truthy _ then _ else _) as [base|e];
    cbn [mbind Result_bind]; [|discriminate].
  destruct (py_num _) as [n|e]; cbn [mbind Result_bind]; [|discriminate].
  intros [= <-]. set (bonus := if Qlt_le_dec 50 n then _ else _).
  clearbody bonus. qminmax. lra.
Qed.

Lemma win_probability_range (skill_match : Q) (competition : Z) :
  0.05 <= _predict_win_probability self gig skill_match competition <= 0.95.
Proof.
  unfold _predict_win_probability. cbv zeta.
  set (total := _ + _ + _ + _). clearbody total. qminmax. lra.
Qed.

End SubScoreRanges.

(** ** Competition estimate *)

Section Competition.
Variable self : AIGigRecommender.t.
Variable gig : gmap string PyVal.

Lemma estimate_competition_inv (c : Z) :
  _estimate_competition self gig = Ok c →
  ∃ sm rm p,
    _calculate_skill_match self gig = Ok sm
    ∧ _calculate_rate_compatibility self gig = Ok rm
    ∧ py_num (dict_get gig "proposals_count" (VNum 0)) = Ok p
    ∧ ((0.7 < sm ∧ 0.7 < rm ∧ c = py_int (p * 1.5))
       ∨ ((sm <= 0.7 ∨ rm <= 0.7) ∧ c = py_int (p * 1.0))).
Proof.
  unfold _estimate_competition. cbv zeta.
  destruct (_calculate_skill_match self gig) as [sm|e];
    cbn [mbind Result_bind]; [|discriminate].
  destruct (_calculate_rate_compatibility self gig) as [rm|e];
    cbn [mbind Result_bind]; [|discriminate].
  destruct (py_num _) as [p|e]; cbn [mbind Result_bind]; [|discriminate].
  intros [= <-]. exists sm, rm, p. repeat split.
  destruct (Qlt_le_dec 0.7 sm); [destruct (Qlt_le_dec 0.7 rm)|]; auto.
Qed.

(** X1. For a gig with a non-negative integer proposals_count n the
    competition estimate c satisfies n <= c <= 1.5 n; it is n itself unless
    both the skill match and the rate match exceed 0.7, and then it is
    floor(1.5 n). *)
Theorem competition_estimate_bounds (n c : Z) :
  dict_get gig "proposals_count" (VNum 0) = VNum (inject_Z n) →
  (0 <= n)%Z →
  _estimate_competition self gig = Ok c →
  (n <= c ∧ 2 * c <= 3 * n)%Z
  ∧ ∃ sm rm,
      _calculate_skill_match self gig = Ok sm
      ∧ _calculate_rate_compatibility self gig = Ok rm
      ∧ (0.7 < sm ∧ 0.7 < rm → c = (3 * n / 2)%Z)
      ∧ (sm <= 0.7 ∨ rm <= 0.7 → c = n).
Proof.
  intros Hp Hn Hc.
  destruct (estimate_competition_inv c Hc) as (sm & rm & p & Hsm & Hrm & Hnum & Hcases).
  rewrite Hp in Hnum. cbn [py_num] in Hnum. injection Hnum as <-.
  rewrite py_int_three_halves, py_int_identity in Hcases by exact Hn.
  split.
  - destruct Hcases as [(_ & _ & ->)|(_ & ->)]; [|lia].
    pose proof (Z.mul_div_le (3 * n) 2 ltac:(lia)).
    assert (n <= 3 * n / 2)%Z by (apply Z.div_le_lower_bound; lia).
    lia.
  - exists sm, rm. repeat split; auto.
    + intros [H1 H2]. destruct Hcases as [(_ & _ & ->)|([H|H] & _)]; [reflexivity|lra|lra].
    + intros H. destruct Hcases as [(H1 & H2 & _)|(_ & ->)]; [|reflexivity].
      destruct H; lra.
Qed.

End Competition.

Lemma competition_estimate_bounds_witness :
  (8 <= 8 ∧ 2 * 8 <= 3 * 8)%Z
  ∧ ∃ sm rm,
      _calculate_skill_match sample_profile sample_gig = Ok sm
      ∧ _calculate_rate_compatibility sample_profile sample_gig = Ok rm
      ∧ (0.7 < sm ∧ 0.7 < rm → 8%Z = (3 * 8 / 2)%Z)
      ∧ (sm <= 0.7 ∨ rm <= 0.7 → 8%Z = 8%Z).
Proof.
  apply (competition_estimate_bounds sample_profile sample_gig 8 8);
    first [ reflexivity | lia | vm_compute; reflexivity ].
Defined.

(** ** Risk level and reasoning *)

Section Risk.
Variable self : AIGigRecommender.t.

Lemma risk_level_cases (client_quality : Q) (competition : Z) (win_prob : Q) :
  _assess_risk_level self client_quality competition win_prob
  = if Qlt_le_dec client_quality 0.5
    then (if (20 <? competition)%Z then "high" else "medium")
    else (if (20 <? competition)%Z then "medium" else "low").
Proof.
  unfold _assess_risk_level.
  destruct (Qlt_le_dec client_quality 0.5), (20 <? competition)%Z,
    (Qlt_le_dec win_prob 0.3); reflexivity.
Qed.

(** X2. The risk level does not depend on the win probability: it is
    "high" exactly when the client quality is below 0.5 and the competition
    above 20, "low" exactly when neither holds, and "medium" otherwise. *)
Theorem risk_level_ignores_win_probability (client_quality : Q)
  (competition : Z) (w1 w2 : Q) :
  _assess_risk_level self client_quality competition w1
  = _assess_risk_level self client_quality competition w2
  ∧ (_assess_risk_level self client_quality competition w1 = "high"
     ↔ client_quality < 0.5 ∧ (20 < competition)%Z)
  ∧ (_assess_risk_level self client_quality competition w1 = "low"
     ↔ 0.5 <= client_quality ∧ (competition <= 20)%Z)
  ∧ (_assess_risk_level self client_quality competition w1 = "medium"
     ↔ (client_quality < 0.5 ∧ (competition <= 20)%Z)
       ∨ (0.5 <= client_quality ∧ (20 < competition)%Z)).
Proof.
  rewrite !risk_level_cases.
  destruct (Qlt_le_dec client_quality 0.5) as [Hq|Hq];
    destruct (Z.ltb_spec 20 competition) as [Hc|Hc];
    repeat split; try discriminate; try tauto; try lia; try lra;
    intros; repeat match goal with H : _ ∧ _ |- _ => destruct H
                              | H : _ ∨ _ |- _ => destruct H end;
    try lra; try lia; auto.
Qed.

Lemma reasoning_limited_history (gig : gmap string PyVal) (sm rm cq : Q)
  (c : Z) (w : Q) :
  In LimitedClientHistory (_generate_reasoning self gig sm rm cq c w)
  ↔ cq < 0.5.
Proof.
  unfold _generate_reasoning.
  destruct (Qlt_le_dec sm 0.8); [destruct (Qlt_le_dec sm 0.6)|];
  (destruct (Qlt_le_dec rm 0.8); [destruct (Qlt_le_dec rm 0.5)|]);
  (destruct (Qlt_le_dec cq 0.8); [destruct (Qlt_le_dec cq 0.5)|]);
  destruct (c <? 5)%Z; destruct (20 <? c)%Z;
  (destruct (Qlt_le_dec w 0.7); [destruct (Qlt_le_dec w 0.3)|]);
  cbn [app In]; split; intros H;
    repeat match goal with H : _ ∨ _ |- _ => destruct H end;
    try discriminate; try contradiction; try lra; auto 10.
Qed.

Lemma reasoning_high_competition (gig : gmap string PyVal) (sm rm cq : Q)
  (c : Z) (w : Q) :
  In HighCompetition (_generate_reasoning self gig sm rm cq c w)
  ↔ (20 < c)%Z.
Proof.
  unfold _generate_reasoning.
  destruct (Qlt_le_dec sm 0.8); [destruct (Qlt_le_dec sm 0.6)|];
  (destruct (Qlt_le_dec rm 0.8); [destruct (Qlt_le_dec rm 0.5)|]);
  (destruct (Qlt_le_dec cq 0.8); [destruct (Qlt_le_dec cq 0.5)|]);
  destruct (Z.ltb_spec c 5); destruct (Z.ltb_spec 20 c);
  (destruct (Qlt_le_dec w 0.7); [destruct (Qlt_le_dec w 0.3)|]);
  cbn [app In]; split; intros Hin;
    repeat match goal with H : _ ∨ _ |- _ => destruct H end;
    try discriminate; try contradiction; try lia; auto 10.
Qed.

End Risk.

(** ** What a returned recommendation contains *)

Section Recommendations.
Variable self : AIGigRecommender.t.

Lemma evaluate_gig_inv (gig : gmap string PyVal) (r : GigRecommendation) :
  evaluate_gig self gig = Ok r →
  ∃ sm rm cq c bid,
    _calculate_skill_match self gig = Ok sm
    ∧ _calculate_rate_compatibility self gig = Ok rm
    ∧ _estimate_client_quality self gig = Ok cq
    ∧ _estimate_competition self gig = Ok c
    ∧ recommendation_score r
      = _calculate_recommendation_score self sm rm cq c
          (_predict_win_probability self gig sm c)
    ∧ win_probability r = _predict_win_probability self gig sm c
    ∧ optimal_bid_amount r = bid
    ∧ _calculate_optimal_bid self gig (_predict_win_probability self gig sm c)
      = Ok bid
    ∧ reasoning r
      = _generate_reasoning self gig sm rm cq c
          (_predict_win_probability self gig sm c)
    ∧ risk_level r
      = _assess_risk_level self cq c (_predict_win_probability self gig sm c)
    ∧ estimated_competition r = c
    ∧ client_quality_score r = cq.
Proof.
  unfold evaluate_gig. cbv zeta.
  destruct (_calculate_skill_match self gig) as [sm|e];
    cbn [mbind Result_bind]; [|discriminate].
  destruct (_calculate_rate_compatibility self gig) as [rm|e];
    cbn [mbind Result_bind]; [|discriminate].
  destruct (_estimate_client_quality self gig) as [cq|e];
    cbn [mbind Result_bind]; [|discriminate].
  destruct (_estimate_competition self gig) as [c|e];
    cbn [mbind Result_bind]; [|discriminate].
  destruct (_calculate_optimal_bid self gig _) as [bid|e] eqn:Hbid;
    cbn [mbind Result_bind]; [|discriminate].
  intros [= <-]. exists sm, rm, cq, c, bid. cbn. repeat split; auto.
Qed.

(** X3. In every recommendation the risk level and the reasoning agree:
    the risk is "high" exactly when the reasoning has both the
    limited-client-history and the high-competition warning, and "low"
    exactly when it has neither. *)
Theorem risk_level_matches_reasoning (gig : gmap string PyVal)
  (r : GigRecommendation) :
  evaluate_gig self gig = Ok r →
  (risk_level r = "high"
   ↔ In LimitedClientHistory (reasoning r) ∧ In HighCompetition (reasoning r))
  ∧ (risk_level r = "low"
     ↔ ¬ In LimitedClientHistory (reasoning r)
       ∧ ¬ In HighCompetition (reasoning r)).
Proof.
  intros H.
  destruct (evaluate_gig_inv gig r H)
    as (sm & rm & cq & c & bid & _ & _ & _ & _ & _ & _ & _ & _ & -> & -> & _).
  rewrite reasoning_limited_history, reasoning_high_competition.
  rewrite risk_level_cases.
  destruct (Qlt_le_dec cq 0.5) as [Hq|Hq];
    destruct (Z.ltb_spec 20 c) as [Hc|Hc];
    repeat split; try discriminate; try tauto; try lia; try lra;
    intros; repeat match goal with H : _ ∧ _ |- _ => destruct H end;
    try lra; try lia; try tauto.
Qed.

Lemma estimate_competition_nonneg (gig : gmap string PyVal) (c : Z) :
  (∀ p, py_num (dict_get gig "proposals_count" (VNum 0)) = Ok p → 0 <= p) →
  _estimate_competition self gig = Ok c → (0 <= c)%Z.
Proof.
  intros Hp Hc.
  destruct (estimate_competition_inv self gig c Hc)
    as (sm & rm & p & _ & _ & Hnum & Hcases).
  specialize (Hp p Hnum).
  destruct Hcases as [(_ & _ & ->)|(_ & ->)]; apply py_int_nonneg; lra.
Qed.

(** X4. With a positive minimum rate and gigs whose proposals_count is not
    negative, every recommendation that [recommend_gigs] returns has a
    recommendation score in [0,1], a win probability in [0.05, 0.95], a
    client quality in [0,1] and a non-negative estimated competition. *)
Theorem recommendations_in_range (gigs : list (gmap string PyVal))
  (top_n : Z) (out : list GigRecommendation) (log : list LogLine) :
  0 < user_rate_min self →
  (∀ gig p, In gig gigs →
     py_num (dict_get gig "proposals_count" (VNum 0)) = Ok p → 0 <= p) →
  recommend_gigs self gigs top_n = Ok (out, log) →
  List.Forall
    (λ r, 0 <= recommendation_score r <= 1
          ∧ 0.05 <= win_probability r <= 0.95
          ∧ 0 <= client_quality_score r <= 1
          ∧ (0 <= estimated_competition r)%Z) out.
Proof.
  intros Hmin Hprop Hret. rewrite recommend_gigs_result in Hret.
  injection Hret as <- <-. apply List.Forall_forall. intros r Hr.
  apply slice_to_incl in Hr.
  apply (Permutation_in _ (sort_desc_perm _ _)) in Hr.
  apply in_scored in Hr. destruct Hr as (gig & Hin & Heval).
  destruct (evaluate_gig_inv gig r Heval)
    as (sm & rm & cq & c & bid & Hsm & Hrm & Hcq & Hc & -> & -> & _ & _ & _ & _ & -> & ->).
  pose proof (skill_match_unit self gig sm Hsm) as Bsm.
  pose proof (rate_compatibility_unit self gig rm Hmin Hrm) as Brm.
  pose proof (client_quality_unit self gig cq Hcq) as Bcq.
  pose proof (win_probability_range self gig sm c) as Bw.
  pose proof (estimate_competition_nonneg gig c (λ p, Hprop gig p Hin) Hc) as Bc.
  pose proof (competition_score_unit c Bc) as Bcs.
  split; [|split; [exact Bw|split; [exact Bcq|exact Bc]]].
  unfold _calculate_recommendation_score. cbv zeta.
  apply py_round3_unit. cbn [w_skill_match w_rate_match w_client_quality
    w_win_probability w_competition weights].
  set (w := _predict_win_probability self gig sm c) in *. clearbody w.
  set (cs := Qmax 0 _) in *. clearbody cs. lra.
Qed.

(** X5. Every gig is either scored or reported: the numbers of scored and
    of skipped gigs add up to the number of gigs, and for [top_n >= 0] the
    returned list has min(top_n, number of scored gigs) entries.  In
    particular an empty gig list gives an empty result. *)
Theorem recommend_gigs_accounts_for_every_gig (gigs : list (gmap string PyVal))
  (top_n : Z) (out : list GigRecommendation) (log : list LogLine) :
  recommend_gigs self gigs top_n = Ok (out, log) →
  (length (scored self gigs) + length log = length gigs)%nat
  ∧ ((0 <= top_n)%Z →
     length out = Nat.min (Z.to_nat top_n) (length gigs - length log))
  ∧ (gigs = [] → out = [] ∧ log = []).
Proof.
  intros Hret. rewrite recommend_gigs_result in Hret. injection Hret as <- <-.
  assert (Hsum : (length (scored self gigs) + length (skipped self gigs)
                  = length gigs)%nat).
  { induction gigs as [|gig rest IH]; [reflexivity|].
    cbn [scored skipped]. destruct (evaluate_gig self gig); cbn [length]; lia. }
  split; [exact Hsum|]. split.
  - intros Hn. rewrite slice_to_nonneg by exact Hn.
    rewrite length_firstn, (Permutation_length (sort_desc_perm _ _)).
    f_equal. lia.
  - intros ->. split; [|reflexivity].
    unfold slice_to. cbn. destruct (0 <=? top_n)%Z; apply firstn_nil.
Qed.

End Recommendations.

Lemma sort_desc_of_sorted {A : Type} (key : A → Q) (l : list A) :
  StronglySorted (desc key) l → sort_desc key l = l.
Proof.
  induction 1 as [|x l Hs IH Hall]; [reflexivity|].
  cbn [sort_desc foldr]. fold (sort_desc key l). rewrite IH.
  destruct Hall as [|y l' Hy _]; [reflexivity|].
  cbn [insert_desc]. unfold desc in Hy.
  destruct (Qlt_le_dec (key x) (key y)); [lra|reflexivity].
Qed.

Lemma firstn_sorted {A : Type} (R : A → A → Prop) (n : nat) (l : list A) :
  StronglySorted R l → StronglySorted R (firstn n l).
Proof.
  intros H. revert n. induction H as [|x l Hs IH Hall]; intros [|n];
    cbn [firstn]; try constructor.
  - apply IH.
  - apply List.Forall_forall. intros y Hy. apply firstn_In in Hy.
    revert y Hy. apply List.Forall_forall. exact Hall.
Qed.

(** X6. Sorting the list returned by [recommend_gigs] once more by
    descending recommendation score, as [AutoBiddingAgent.scan_and_bid]
    does, leaves it unchanged. *)
Theorem resorting_recommendations_changes_nothing (self : AIGigRecommender.t)
  (gigs : list (gmap string PyVal)) (top_n : Z)
  (out : list GigRecommendation) (log : list LogLine) :
  recommend_gigs self gigs top_n = Ok (out, log) →
  sort_desc recommendation_score out = out.
Proof.
  intros Hret. rewrite recommend_gigs_result in Hret. injection Hret as <- <-.
  apply sort_desc_of_sorted. unfold slice_to.
  destruct (0 <=? top_n)%Z; apply firstn_sorted, sort_desc_sorted.
Qed.

Lemma risk_level_matches_reasoning_witness :
  ∃ r,
    evaluate_gig sample_profile second_gig = Ok r
    ∧ (risk_level r = "high"
       ↔ In LimitedClientHistory (reasoning r) ∧ In HighCompetition (reasoning r))
    ∧ (risk_level r = "low"
       ↔ ¬ In LimitedClientHistory (reasoning r)
         ∧ ¬ In HighCompetition (reasoning r)).
Proof.
  eexists. split; [vm_compute; reflexivity|].
  apply (risk_level_matches_reasoning sample_profile second_gig).
  vm_compute. reflexivity.
Defined.

Lemma sample_proposals_nonneg (gig : gmap string PyVal) (p : Q) :
  In gig [second_gig; malformed_gig; sample_gig] →
  py_num (dict_get gig "proposals_count" (VNum 0)) = Ok p → 0 <= p.
Proof.
  intros [<-|[<-|[<-|[]]]] H; vm_compute in H; injection H as <-;
    vm_compute; discriminate.
Defined.

Lemma recommendations_in_range_witness :
  ∃ out log,
    recommend_gigs sample_profile [second_gig; malformed_gig; sample_gig] 10
    = Ok (out, log)
    ∧ List.Forall
        (λ r, 0 <= recommendation_score r <= 1
              ∧ 0.05 <= win_probability r <= 0.95
              ∧ 0 <= client_quality_score r <= 1
              ∧ (0 <= estimated_competition r)%Z) out.
Proof.
  eexists _, _. split; [vm_compute; reflexivity|].
  eapply (recommendations_in_range sample_profile
            [second_gig; malformed_gig; sample_gig] 10).
  - vm_compute. reflexivity.
  - exact sample_proposals_nonneg.
  - vm_compute. reflexivity.
Defined.

Lemma recommend_gigs_accounts_for_every_gig_witness :
  ∃ out log,
    recommend_gigs sample_profile [second_gig; malformed_gig; sample_gig] 1
    = Ok (out, log)
    ∧ (length (scored sample_profile [second_gig; malformed_gig; sample_gig])
       + length log = 3)%nat
    ∧ length out = 1%nat.
Proof.
  eexists _, _. split; [vm_compute; reflexivity|].
  destruct (recommend_gigs_accounts_for_every_gig sample_profile
              [second_gig; malformed_gig; sample_gig] 1 _ _
              ltac:(vm_compute; reflexivity)) as (Hsum & Hlen & _).
  split; [exact Hsum|]. exact (Hlen ltac:(lia)).
Defined.

Lemma resorting_recommendations_changes_nothing_witness :
  ∃ out log,
    recommend_gigs sample_profile [second_gig; malformed_gig; sample_gig] 10
    = Ok (out, log)
    ∧ sort_desc recommendation_score out = out.
Proof.
  eexists _, _. split; [vm_compute; reflexivity|].
  apply (resorting_recommendations_changes_nothing sample_profile
           [second_gig; malformed_gig; sample_gig] 10 _
           [{| skipped_id := VStr "g3"; caught := TypeError |}]).
  vm_compute. reflexivity.
Defined.

(** ** Optimal bid *)

Section OptimalBid.
Variable self : AIGigRecommender.t.
Variable gig : gmap string PyVal.

(** X7. Without a budget the bid is the user's minimum rate.  With a
    numeric budget_min <= budget_max the bid is either the user's floor
    (the minimum rate, times 40 for a fixed-price gig) or an amount inside
    the budget range, not below that floor, rounded to two decimals. *)
Theorem optimal_bid_is_floor_or_in_budget (win_prob : Q) :
  (truthy (dict_get gig "budget_max" (VNum 0)) = false →
   _calculate_optimal_bid self gig win_prob = Ok (user_rate_min self))
  ∧ (∀ lo hi,
       dict_get gig "budget_min" (VNum 0) = VNum lo →
       dict_get gig "budget_max" (VNum 0) = VNum hi →
       ¬ hi == 0 → lo <= hi →
       let floor :=
         if py_eq_str (dict_get gig "project_type" VNone) "fixed"
         then user_rate_min self * 40 else user_rate_min self in
       ∃ bid,
         _calculate_optimal_bid self gig win_prob = Ok bid
         ∧ (bid = floor
            ∨ ∃ v, bid = py_round v 2 ∧ lo <= v <= hi ∧ floor <= v)).
Proof.
  split.
  - intros H. unfold _calculate_optimal_bid. cbv zeta. rewrite H. reflexivity.
  - intros lo hi Hlo Hhi Hnz Hle floor. unfold _calculate_optimal_bid.
    cbv zeta. rewrite Hlo, Hhi. cbn [truthy py_num mbind Result_bind].
    destruct (Qeq_bool hi 0) eqn:E; [apply Qeq_bool_eq in E; contradiction|].
    cbn [negb]. unfold floor.
    set (optimal := if Qlt_le_dec 0.7 win_prob then _ else _).
    assert (Hopt : lo <= optimal <= hi).
    { unfold optimal. destruct (Qlt_le_dec 0.7 win_prob);
        [|destruct (Qlt_le_dec 0.5 win_prob)]; lra. }
    clearbody optimal.
    destruct (py_eq_str _ _).
    + destruct (Qlt_le_dec (optimal / 40) (user_rate_min self)) as [Hlow|Hge];
        eexists; (split; [reflexivity|]); [left; reflexivity|right].
      exists optimal. split; [reflexivity|]. split; [exact Hopt|].
      revert Hge. qdiv. intros Hge. lra.
    + destruct (Qlt_le_dec optimal (user_rate_min self)) as [Hlow|Hge];
        eexists; (split; [reflexivity|]); [left; reflexivity|right].
      exists optimal. split; [reflexivity|]. split; [exact Hopt|exact Hge].
Qed.

End OptimalBid.

Lemma optimal_bid_is_floor_or_in_budget_witness :
  ∃ bid,
    _calculate_optimal_bid sample_profile low_budget_gig 0.6 = Ok bid
    ∧ (bid = 50 ∨ ∃ v, bid = py_round v 2 ∧ 10 <= v <= 20 ∧ 50 <= v).
Proof.
  destruct (optimal_bid_is_floor_or_in_budget sample_profile low_budget_gig 0.6)
    as [_ H].
  apply (H 10 20); first [ reflexivity | vm_compute; discriminate ].
Defined.

(** ** Rounding is monotone *)

Lemma round_half_even_mono (x y : Q) :
  x <= y → (round_half_even x <= round_half_even y)%Z.
Proof.
  intros Hxy. pose proof (Qfloor_resp_le _ _ Hxy) as Hf.
  destruct (floor_bounds x) as [Hx0 Hx1]. destruct (floor_bounds y) as [Hy0 Hy1].
  unfold round_half_even.
  destruct (Z.eq_dec (Qfloor x) (Qfloor y)) as [E|NE].
  - rewrite <- E in *.
    destruct (Qcompare_spec (x - inject_Z (Qfloor x)) 0.5) as [Ex|Lx|Gx];
      destruct (Qcompare_spec (y - inject_Z (Qfloor x)) 0.5) as [Ey|Ly|Gy];
      try destruct (Z.even (Qfloor x)); try lia; lra.
  - assert (Hlt : (Qfloor x + 1 <= Qfloor y)%Z) by lia.
    destruct (Qcompare (x - inject_Z (Qfloor x)) 0.5);
      destruct (Qcompare (y - inject_Z (Qfloor y)) 0.5);
      try destruct (Z.even (Qfloor x)); try destruct (Z.even (Qfloor y)); lia.
Qed.

Lemma py_round_mono (x y : Q) (n : nat) :
  x <= y → py_round x n <= py_round y n.
Proof.
  intros Hxy. unfold py_round. pose proof (scale_pos n) as Hs.
  set (s := inject_Z (10 ^ Z.of_nat n)) in *.
  apply Qmult_le_compat_r; [|apply Qlt_le_weak, Qinv_lt_0_compat; exact Hs].
  rewrite <- Zle_Qle. apply round_half_even_mono.
  apply Qmult_le_compat_r; lra.
Qed.

(** ** Skill premium *)

Lemma premium_table_range (k : string) (v : Q) :
  premium_skills !! k = Some v → 1.1 <= v <= 1.3.
Proof.
  intros H. unfold premium_skills in H. apply elem_of_list_to_map_2 in H.
  repeat (apply elem_of_cons in H as [H|H]; [injection H as -> ->; lra|]).
  apply elem_of_nil in H. contradiction.
Qed.

Lemma premium_fold_range (acc : Q) (l : list string) :
  1 <= acc <= 1.3 →
  acc <= foldl premium_step acc l ∧ foldl premium_step acc l <= 1.3.
Proof.
  revert acc. induction l as [|x l IH]; intros acc Hacc; cbn [foldl]; [lra|].
  assert (Hstep : acc <= premium_step acc x ∧ premium_step acc x <= 1.3).
  { unfold premium_step. destruct (premium_skills !! x) as [v|] eqn:E; [|lra].
    apply premium_table_range in E. qminmax. lra. }
  destruct (IH (premium_step acc x)) as [H1 H2]; lra.
Qed.

Lemma premium_fold_covers (acc : Q) (l : list string) (x : string) (v : Q) :
  In x l → premium_skills !! x = Some v → 1 <= acc <= 1.3 →
  v <= foldl premium_step acc l.
Proof.
  revert acc. induction l as [|y l IH]; intros acc Hin Hx Hacc; [destruct Hin|].
  cbn [foldl].
  assert (Hstep : 1 <= premium_step acc y <= 1.3).
  { destruct (premium_fold_range acc [y] Hacc) as [H1 H2]. cbn [foldl] in *. lra. }
  destruct Hin as [->|Hin].
  - destruct (premium_fold_range (premium_step acc x) l Hstep) as [H1 _].
    unfold premium_step in H1 at 1. rewrite Hx in H1. qminmax. lra.
  - apply IH; assumption.
Qed.

Lemma premium_fold_none (acc : Q) (l : list string) :
  (∀ x, In x l → premium_skills !! x = None) → foldl premium_step acc l = acc.
Proof.
  revert acc. induction l as [|y l IH]; intros acc H; [reflexivity|].
  cbn [foldl]. unfold premium_step at 2. rewrite (H y (or_introl eq_refl)).
  apply IH. intros x Hx. apply H. right. exact Hx.
Qed.

(** X8. For any list of skill names the skill premium is computed without
    error and lies in [1.0, 1.3]; it is at least the premium of every
    listed skill found (case-insensitively) in the premium table, and it is
    1.0 when none of them is in the table. *)
Theorem skill_premium_is_bounded_maximum (skills : list string) :
  ∃ m,
    _calculate_skill_premium (VList (map VStr skills)) = Ok m
    ∧ 1 <= m <= 1.3
    ∧ (∀ s v, In s skills → premium_skills !! str_lower s = Some v → v <= m)
    ∧ ((∀ s, In s skills → premium_skills !! str_lower s = None) → m = 1.0).
Proof.
  unfold _calculate_skill_premium. rewrite lower_all_strings.
  cbn [mbind Result_bind]. eexists. split; [reflexivity|].
  assert (H1 : 1 <= 1.0 <= 1.3) by lra.
  split; [|split].
  - destruct (premium_fold_range 1.0 (map str_lower skills) H1). lra.
  - intros s v Hs Hv.
    apply (premium_fold_covers 1.0 _ (str_lower s) v); auto.
    apply in_map. exact Hs.
  - intros Hnone. apply premium_fold_none.
    intros x Hx. apply in_map_iff in Hx as (s & <- & Hs). apply Hnone, Hs.
Qed.

Example skill_premium_sample :
  ∃ m, _calculate_skill_premium (VList [VStr "Python"; VStr "RUST"; VStr "Go"])
       = Ok m ∧ m == 1.2.
Proof. eexists. split; [vm_compute; reflexivity|reflexivity]. Qed.

(** ** The pricing recommendation as a whole *)

Section PricingResult.
Variables gig user_profile : gmap string PyVal.

Lemma calculate_optimal_price_inv (r : Pricing) :
  calculate_optimal_price gig user_profile = Ok r →
  ∃ c pct floor v,
    py_num (dict_get gig "proposals_count" (VNum 0)) = Ok c
    ∧ py_num (dict_get user_profile "success_rate" (VNum 80)) = Ok pct
    ∧ py_num (dict_get user_profile "hourly_rate_min" (VNum 25)) = Ok floor
    ∧ floor <= v
    ∧ optimal_price r = py_round v 2
    ∧ conservative_price r = py_round (v * 0.9) 2
    ∧ aggressive_price r = py_round (v * 1.1) 2
    ∧ _generate_pricing_strategy v (dict_get gig "budget_min" (VNum 0))
        (dict_get gig "budget_max" (VNum 0)) c (pct / 100)
      = Ok (recommended_strategy r)
    ∧ factor_competition_level (factors r)
      = (if Qlt_le_dec c 5 then "low"
         else if Qlt_le_dec 20 c then "high" else "medium")
    ∧ confidence r
      = _calculate_pricing_confidence (dict_get gig "budget_max" (VNum 0)) c.
Proof.
  unfold calculate_optimal_price. cbv zeta.
  destruct (py_num (dict_get user_profile "success_rate" _)) as [pct|e];
    cbn [mbind Result_bind]; [|discriminate].
  destruct (if truthy _ then _ else _) as [base_price|e];
    cbn [mbind Result_bind]; [|discriminate].
  destruct (py_num (dict_get gig "proposals_count" _)) as [c|e];
    cbn [mbind Result_bind]; [|discriminate].
  destruct (_calculate_skill_premium _) as [skm|e];
    cbn [mbind Result_bind]; [|discriminate].
  destruct (py_num base_price) as [base|e];
    cbn [mbind Result_bind]; [|discriminate].
  destruct (if truthy _ then _ else _) as [bounded|e];
    cbn [mbind Result_bind]; [|discriminate].
  destruct (py_num (dict_get user_profile "hourly_rate_min" _)) as [floor|e];
    cbn [mbind Result_bind]; [|discriminate].
  destruct (_generate_pricing_strategy _ _ _ _ _) as [st|e] eqn:Hst;
    cbn [mbind Result_bind]; [|discriminate].
  intros [= <-]. exists c, pct, floor, (Qmax bounded floor). cbn.
  repeat split; auto. apply Q.le_max_r.
Qed.

(** X9. Whenever a price is returned for a profile whose minimum rate is
    not negative, the three prices are ordered,
    conservative <= optimal <= aggressive, and the optimal price is not
    below the minimum rate rounded to two decimals. *)
Theorem price_band_is_ordered (r : Pricing) (floor : Q) :
  calculate_optimal_price gig user_profile = Ok r →
  py_num (dict_get user_profile "hourly_rate_min" (VNum 25)) = Ok floor →
  0 <= floor →
  conservative_price r <= optimal_price r
  ∧ optimal_price r <= aggressive_price r
  ∧ py_round floor 2 <= optimal_price r.
Proof.
  intros Hr Hfloor Hpos.
  destruct (calculate_optimal_price_inv r Hr)
    as (c & pct & floor' & v & _ & _ & Hf & Hv & -> & -> & -> & _).
  rewrite Hfloor in Hf. injection Hf as <-.
  repeat split; apply py_round_mono; lra.
Qed.

Lemma strategy_competitive (v : Q) (lo hi : PyVal) (c sr : Q) (st : Strategy) :
  _generate_pricing_strategy v lo hi c sr = Ok st →
  ((∃ bid, st = CompetitiveStrategy bid) ↔ 20 < c)
  ∧ ((∃ bid, st = PremiumStrategy bid) → c < 5).
Proof.
  unfold _generate_pricing_strategy.
  destruct (Qlt_le_dec c 5) as [H5|H5]; [destruct (Qlt_le_dec 0.8 sr)|].
  - intros [= <-]. split; [split|]; [intros [b [=]]|lra|auto].
  - destruct (Qlt_le_dec 20 c) as [H20|H20]; [lra|].
    destruct (py_num hi) as [m|e]; cbn [mbind Result_bind]; [|discriminate].
    destruct (Qlt_le_dec _ _); intros [= <-];
      (split; [split|]; [intros [b [=]]|lra|intros [b [=]]]).
  - destruct (Qlt_le_dec 20 c) as [H20|H20].
    + intros [= <-]. split; [split|]; [auto|eauto|intros [b [=]]].
    + destruct (py_num hi) as [m|e]; cbn [mbind Result_bind]; [|discriminate].
      destruct (Qlt_le_dec _ _); intros [= <-];
        (split; [split|]; [intros [b [=]]|lra|intros [b [=]]]).
Qed.

(** X10. The parts of a pricing recommendation agree with each other: the
    competition level is "high" exactly when the strategy is the
    competitive one; a premium strategy comes with competition level "low";
    confidence "low" occurs only with competition level "high", and
    confidence "high" never with it. *)
Theorem pricing_fields_are_consistent (r : Pricing) :
  calculate_optimal_price gig user_profile = Ok r →
  (factor_competition_level (factors r) = "high"
   ↔ ∃ bid, recommended_strategy r = CompetitiveStrategy bid)
  ∧ ((∃ bid, recommended_strategy r = PremiumStrategy bid) →
     factor_competition_level (factors r) = "low")
  ∧ (confidence r = "low" → factor_competition_level (factors r) = "high")
  ∧ (confidence r = "high" → factor_competition_level (factors r) ≠ "high").
Proof.
  intros Hr.
  destruct (calculate_optimal_price_inv r Hr)
    as (c & pct & floor & v & _ & _ & _ & _ & _ & _ & _ & Hst & -> & ->).
  destruct (strategy_competitive _ _ _ _ _ _ Hst) as [Hcomp Hprem].
  unfold _calculate_pricing_confidence.
  split; [|split; [|split]].
  - rewrite Hcomp. destruct (Qlt_le_dec c 5); [|destruct (Qlt_le_dec 20 c)];
      split; intros H; try discriminate; try reflexivity; lra.
  - intros H. apply Hprem in H. destruct (Qlt_le_dec c 5); [reflexivity|lra].
  - destruct (truthy _); cbn [andb orb];
      destruct (Qlt_le_dec c 15); try discriminate;
      destruct (Qlt_le_dec c 25); try discriminate;
      intros _; (destruct (Qlt_le_dec c 5); [lra|]);
      (destruct (Qlt_le_dec 20 c); [reflexivity|lra]).
  - destruct (truthy _); cbn [andb orb];
      destruct (Qlt_le_dec c 15); try discriminate;
      try (destruct (Qlt_le_dec c 25); discriminate);
      intros _; (destruct (Qlt_le_dec c 5); [discriminate|]);
      (destruct (Qlt_le_dec 20 c); [lra|discriminate]).
Qed.

End PricingResult.

Lemma price_band_is_ordered_witness :
  ∃ r,
    calculate_optimal_price spec_pricing_gig spec_pricing_profile = Ok r
    ∧ conservative_price r <= optimal_price r
    ∧ optimal_price r <= aggressive_price r
    ∧ py_round 50 2 <= optimal_price r.
Proof.
  eexists. split; [vm_compute; reflexivity|].
  apply (price_band_is_ordered spec_pricing_gig spec_pricing_profile _ 50);
    first [ vm_compute; reflexivity | vm_compute; discriminate ].
Defined.

Lemma pricing_fields_are_consistent_witness :
  ∃ r,
    calculate_optimal_price spec_pricing_gig spec_pricing_profile = Ok r
    ∧ (factor_competition_level (factors r) = "high"
       ↔ ∃ bid, recommended_strategy r = CompetitiveStrategy bid)
    ∧ ((∃ bid, recommended_strategy r = PremiumStrategy bid) →
       factor_competition_level (factors r) = "low")
    ∧ (confidence r = "low" → factor_competition_level (factors r) = "high")
    ∧ (confidence r = "high" → factor_competition_level (factors r) ≠ "high").
Proof.
  eexists. split; [vm_compute; reflexivity|].
  apply (pricing_fields_are_consistent spec_pricing_gig spec_pricing_profile).
  vm_compute. reflexivity.
Defined.

(** ** Market analysis on a corpus with matches *)


Lemma relevant_gigs_sound (name : string) (gigs rel : list (gmap string PyVal)) :
  relevant_gigs name gigs = Ok rel →
  ∀ gig, In gig rel → In gig gigs ∧ requires_skill name gig = Ok true.
Proof.
  revert rel. induction gigs as [|g rest IH]; intros rel; cbn [relevant_gigs].
  - intros [= <-] gig [].
  - destruct (requires_skill name g) as [keep|e] eqn:Hk;
      cbn [mbind Result_bind]; [|discriminate].
    destruct (relevant_gigs name rest) as [tail|e];
      cbn [mbind Result_bind]; [|discriminate].
    intros [= <-] gig Hin. specialize (IH tail eq_refl).
    destruct keep.
    + destruct Hin as [<-|Hin]; [split; [left; reflexivity|exact Hk]|].
      destruct (IH gig Hin). split; [right|]; assumption.
    + destruct (IH gig Hin). split; [right|]; assumption.
Qed.

Lemma increment_keys (key k : PyVal) (counts : list (PyVal * Z)) :
  In k (map fst (increment key counts)) → In k (map fst counts) ∨ k = key.
Proof.
  induction counts as [|[k' n] rest IH]; cbn [increment map fst In].
  - intros [<-|[]]. right. reflexivity.
  - destruct (py_key_eqb k' key); cbn [map fst In].
    + intros [<-|H]; auto.
    + intros [<-|H]; auto. destruct (IH H); auto.
Qed.

Lemma count_platforms_keys (rel : list (gmap string PyVal))
  (acc counts : list (PyVal * Z)) (k : PyVal) :
  count_platforms acc rel = Ok counts → In k (map fst counts) →
  In k (map fst acc)
  ∨ ∃ gig, In gig rel ∧ dict_get gig "platform" (VStr "unknown") = k.
Proof.
  revert acc. induction rel as [|gig rest IH]; intros acc; cbn [count_platforms].
  - intros [= <-] Hk. left. exact Hk.
  - intros Hc Hk.
    assert (Hrec : ∃ key, dict_get gig "platform" (VStr "unknown") = key
                          ∧ count_platforms (increment key acc) rest = Ok counts).
    { destruct (dict_get gig "platform" (VStr "unknown")) eqn:E;
        try discriminate; eexists; split; try reflexivity; exact Hc. }
    destruct Hrec as (key & Hkey & Hrest).
    destruct (IH _ Hrest Hk) as [Hacc|(g & Hg & Hp)].
    + apply increment_keys in Hacc as [Hacc | ->]; [left; exact Hacc|].
      right. exists gig. split; [left; reflexivity|exact Hkey].
    + right. exists g. split; [right; exact Hg|exact Hp].
Qed.

Lemma relevant_gigs_empty (name : string) (gigs rel : list (gmap string PyVal)) :
  relevant_gigs name gigs = Ok rel →
  (rel = [] ↔ ∀ gig, In gig gigs → requires_skill name gig = Ok false).
Proof.
  revert rel. induction gigs as [|g rest IH]; intros rel; cbn [relevant_gigs].
  - intros [= <-]. split; [intros _ gig []|reflexivity].
  - destruct (requires_skill name g) as [keep|e] eqn:Hk;
      cbn [mbind Result_bind]; [|discriminate].
    destruct (relevant_gigs name rest) as [tail|e];
      cbn [mbind Result_bind]; [|discriminate].
    intros [= <-]. specialize (IH tail eq_refl). destruct keep.
    + split; [discriminate|]. intros H.
      specialize (H g (or_introl eq_refl)). congruence.
    + rewrite IH. split.
      * intros H gig [<-|Hin]; [exact Hk|apply H, Hin].
      * intros H gig Hin. apply H. right. exact Hin.
Qed.

(** X11. Whenever [analyze_skill_demand] returns an insight, the insight
    names the analysed skill, its demand score lies in [0,1], it lists at
    most three platforms, and its competition level is "unknown" exactly
    when no gig of the corpus requires the skill; otherwise the level is
    "low", "medium" or "high" and the rate trend is "stable". *)
Theorem skill_demand_insight_is_well_formed (name : string)
  (gigs : list (gmap string PyVal)) (insight : MarketInsight) :
  analyze_skill_demand name gigs = Ok insight →
  skill insight = name
  ∧ 0 <= demand_score insight <= 1
  ∧ (length (top_platforms insight) <= 3)%nat
  ∧ (competition_level insight = "unknown"
     ↔ ∀ gig, In gig gigs → requires_skill name gig = Ok false)
  ∧ (competition_level insight ≠ "unknown" →
     rate_trend insight = "stable"
     ∧ (competition_level insight = "low"
        ∨ competition_level insight = "medium"
        ∨ competition_level insight = "high")).
Proof.
  unfold analyze_skill_demand.
  destruct (relevant_gigs name gigs) as [rel|e] eqn:Hrel;
    cbn [mbind Result_bind]; [|discriminate].
  pose proof (relevant_gigs_empty name gigs rel Hrel) as Hempty.
  destruct rel as [|g rel].
  - intros [= <-]. cbn [skill demand_score top_platforms competition_level
      rate_trend length].
    split; [reflexivity|]. split; [lra|]. split; [lia|]. split.
    + split; [intros _; apply Hempty; reflexivity|reflexivity].
    + intros H. contradiction.
  - cbv zeta.
    destruct (collect_rates _) as [rates|e];
      cbn [mbind Result_bind]; [|discriminate].
    destruct (match rates with [] => _ | _ :: _ => _ end) as [avg|e];
      cbn [mbind Result_bind]; [|discriminate].
    destruct (count_platforms [] (g :: rel)) as [counts|e];
      cbn [mbind Result_bind]; [|discriminate].
    destruct (py_sum _ _) as [proposals|e];
      cbn [mbind Result_bind]; [|discriminate].
    intros [= <-]. cbn [skill demand_score top_platforms competition_level
      rate_trend].
    split; [reflexivity|]. split; [|split; [|split]].
    + apply py_round3_unit.
      assert (Hratio : 0 <= inject_Z (Z.of_nat (length (g :: rel)))
                            / inject_Z (Z.max 1 (Z.of_nat (length gigs))) * 10).
      { apply Qmult_le_0_compat; [|lra]. apply Qle_shift_div_l.
        - change 0 with (inject_Z 0). rewrite <- Zlt_Qlt. lia.
        - rewrite Qmult_0_l. change 0 with (inject_Z 0). rewrite <- Zle_Qle. lia. }
      set (ratio := _ / _ * 10) in *. clearbody ratio. qminmax. lra.
    + rewrite length_map. apply firstn_le_length.
    + split.
      * destruct (Qlt_le_dec _ 10); [discriminate|].
        destruct (Qlt_le_dec _ 20); discriminate.
      * intros H. apply Hempty in H. discriminate.
    + intros _. split; [reflexivity|].
      destruct (Qlt_le_dec _ 10); [auto|]. destruct (Qlt_le_dec _ 20); auto.
Qed.

Lemma skill_demand_insight_is_well_formed_witness :
  ∃ insight,
    analyze_skill_demand "Python" [upwork_gig; design_gig; fiverr_gig] = Ok insight
    ∧ skill insight = "Python"
    ∧ 0 <= demand_score insight <= 1
    ∧ (length (top_platforms insight) <= 3)%nat
    ∧ (competition_level insight = "unknown"
       ↔ ∀ gig, In gig [upwork_gig; design_gig; fiverr_gig] →
           requires_skill "Python" gig = Ok false)
    ∧ (competition_level insight ≠ "unknown" →
       rate_trend insight = "stable"
       ∧ (competition_level insight = "low"
          ∨ competition_level insight = "medium"
          ∨ competition_level insight = "high")).
Proof.
  eexists. split; [vm_compute; reflexivity|].
  apply (skill_demand_insight_is_well_formed "Python"
           [upwork_gig; design_gig; fiverr_gig]).
  vm_compute. reflexivity.
Defined.

Example skill_demand_sample :
  ∃ insight,
    analyze_skill_demand "Python" [upwork_gig; design_gig; fiverr_gig] = Ok insight
    ∧ top_platforms insight = [VStr "upwork"; VStr "fiverr"]
    ∧ average_rate insight == 85
    ∧ competition_level insight = "low".
Proof.
  eexists. split; [vm_compute; reflexivity|].
  split; [reflexivity|]. split; reflexivity.
Qed.

Lemma analyze_skill_demand_platforms (name : string)
  (gigs : list (gmap string PyVal)) (insight : MarketInsight) :
  analyze_skill_demand name gigs = Ok insight →
  ∃ rel counts,
    relevant_gigs name gigs = Ok rel
    ∧ count_platforms [] rel = Ok counts
    ∧ top_platforms insight
      = map fst (firstn 3 (sort_desc (λ p, inject_Z p.2) counts)).
Proof.
  unfold analyze_skill_demand.
  destruct (relevant_gigs name gigs) as [rel|e];
    cbn [mbind Result_bind]; [|discriminate].
  destruct rel as [|g rel].
  - intros [= <-]. exists [], []. repeat split.
  - cbv zeta.
    destruct (collect_rates _) as [rates|e];
      cbn [mbind Result_bind]; [|discriminate].
    destruct (match rates with [] => _ | _ :: _ => _ end) as [avg|e];
      cbn [mbind Result_bind]; [|discriminate].
    destruct (count_platforms [] (g :: rel)) as [counts|e] eqn:Hc;
      cbn [mbind Result_bind]; [|discriminate].
    destruct (py_sum _ _) as [proposals|e];
      cbn [mbind Result_bind]; [|discriminate].
    intros [= <-]. exists (g :: rel), counts. repeat split. exact Hc.
Qed.

(** X12. Every platform listed in [top_platforms] is the platform (or the
    default "unknown") of at least one gig of the corpus that requires the
    analysed skill. *)
Theorem top_platforms_come_from_matching_gigs (name : string)
  (gigs : list (gmap string PyVal)) (insight : MarketInsight) (p : PyVal) :
  analyze_skill_demand name gigs = Ok insight →
  In p (top_platforms insight) →
  ∃ gig,
    In gig gigs
    ∧ requires_skill name gig = Ok true
    ∧ dict_get gig "platform" (VStr "unknown") = p.
Proof.
  intros Hinsight Hp.
  destruct (analyze_skill_demand_platforms name gigs insight Hinsight)
    as (rel & counts & Hrel & Hcounts & Htop).
  rewrite Htop in Hp. apply in_map_iff in Hp as ([k n] & <- & Hkn).
  apply firstn_In in Hkn.
  apply (Permutation_in _ (sort_desc_perm _ _)) in Hkn.
  assert (Hk : In k (map fst counts)) by (apply in_map_iff; exists (k, n); auto).
  destruct (count_platforms_keys rel [] counts k Hcounts Hk) as [[]|(gig & Hgig & Hplat)].
  destruct (relevant_gigs_sound name gigs rel Hrel gig Hgig) as [Hin Hreq].
  exists gig. auto.
Qed.

Lemma top_platforms_come_from_matching_gigs_witness :
  ∃ gig,
    In gig [upwork_gig; design_gig; fiverr_gig]
    ∧ requires_skill "Python" gig = Ok true
    ∧ dict_get gig "platform" (VStr "unknown") = VStr "fiverr".
Proof.
  eapply (top_platforms_come_from_matching_gigs "Python"
            [upwork_gig; design_gig; fiverr_gig]).
  - vm_compute. reflexivity.
  - right. left. reflexivity.
Defined.

(** ** Market trends *)

Lemma market_trends_loop_spec (skills : list string)
  (gigs : list (gmap string PyVal)) (acc trends : gmap string MarketInsight) :
  market_trends_loop acc skills gigs = Ok trends →
  ∀ name insight,
    trends !! name = Some insight
    ↔ (In name skills ∧ analyze_skill_demand name gigs = Ok insight)
      ∨ (¬ In name skills ∧ acc !! name = Some insight).
Proof.
  revert acc. induction skills as [|s rest IH]; intros acc; cbn [market_trends_loop].
  - intros [= <-] name insight. cbn [In]. tauto.
  - destruct (analyze_skill_demand s gigs) as [i|e] eqn:Hs;
      cbn [mbind Result_bind]; [|discriminate].
    intros Hloop name insight. rewrite (IH _ Hloop name insight). cbn [In].
    destruct (decide (s = name)) as [->|Hne].
    + rewrite lookup_insert_eq. split.
      * intros [[Hin Ha]|[Hnot [= <-]]]; left; auto.
      * intros [[_ Ha]|[Hnot _]]; [|tauto].
        destruct (in_dec string_dec name rest) as [Hin|Hnot]; [left; auto|].
        right. split; [exact Hnot|]. congruence.
    + rewrite lookup_insert_ne by exact Hne. split.
      * intros [[Hin Ha]|[Hnot Hacc]]; [left; auto|right; split; [|exact Hacc]].
        intros [E|Hin]; [contradiction|contradiction].
      * intros [[[E|Hin] Ha]|[Hnot Hacc]]; [contradiction|left; auto|].
        right. split; [tauto|exact Hacc].
Qed.

(** X13. When [get_market_trends] returns, the dictionary has an entry for
    exactly the requested skills, and the entry of a skill is the insight
    that [analyze_skill_demand] computes for it; when it raises, the
    analysis of one of the requested skills raised that exception. *)
Theorem market_trends_entries (skills : list string)
  (gigs : list (gmap string PyVal)) :
  (∀ trends, get_market_trends skills gigs = Ok trends →
     ∀ name insight,
       trends !! name = Some insight
       ↔ In name skills ∧ analyze_skill_demand name gigs = Ok insight)
  ∧ (∀ e, get_market_trends skills gigs = Raise e →
       ∃ name, In name skills ∧ analyze_skill_demand name gigs = Raise e).
Proof.
  split.
  - intros trends H name insight. unfold get_market_trends in H.
    rewrite (market_trends_loop_spec skills gigs ∅ trends H name insight).
    rewrite lookup_empty. split; [intros [?|[_ [=]]]; assumption|auto].
  - unfold get_market_trends. generalize (∅ : gmap string MarketInsight).
    induction skills as [|s rest IH]; intros acc e; cbn [market_trends_loop];
      [discriminate|].
    destruct (analyze_skill_demand s gigs) as [i|e'] eqn:Hs;
      cbn [mbind Result_bind].
    + intros H. destruct (IH _ _ H) as (name & Hin & Hr).
      exists name. split; [right; exact Hin|exact Hr].
    + intros [= <-]. exists s. split; [left; reflexivity|exact Hs].
Qed.

Lemma market_trends_entries_witness :
  ∃ trends,
    get_market_trends ["Python"; "Figma"] [upwork_gig; design_gig; fiverr_gig]
    = Ok trends
    ∧ ∀ name insight,
        trends !! name = Some insight
        ↔ In name ["Python"; "Figma"]
          ∧ analyze_skill_demand name [upwork_gig; design_gig; fiverr_gig]
            = Ok insight.
Proof.
  destruct (market_trends_entries ["Python"; "Figma"]
              [upwork_gig; design_gig; fiverr_gig]) as [H _].
  assert (H1 : ∃ i, analyze_skill_demand "Python"
                      [upwork_gig; design_gig; fiverr_gig] = Ok i)
    by (eexists; vm_compute; reflexivity).
  assert (H2 : ∃ i, analyze_skill_demand "Figma"
                      [upwork_gig; design_gig; fiverr_gig] = Ok i)
    by (eexists; vm_compute; reflexivity).
  destruct H1 as [i1 H1]. destruct H2 as [i2 H2].
  assert (Hget : get_market_trends ["Python"; "Figma"]
                   [upwork_gig; design_gig; fiverr_gig]
                 = Ok (<["Figma" := i2]> (<["Python" := i1]> ∅))).
  { unfold get_market_trends. cbn [market_trends_loop].
    rewrite H1. cbn [mbind Result_bind]. rewrite H2. reflexivity. }
  eexists. split; [exact Hget|apply H, Hget].
Defined.

(** ** Client research *)

Section ClientResearch.
Variable client_data : gmap string PyVal.

Lemma research_client_inv (ci : ClientIntelligence) :
  research_client client_data = Ok ci →
  _calculate_quality_score (dict_get client_data "rating" (VNum 0))
    (dict_get client_data "reviews" (VNum 0))
    (dict_get client_data "total_spent" (VNum 0))
    (dict_get client_data "total_projects" (VNum 0)) = Ok (quality_score ci)
  ∧ _estimate_payment_reliability (dict_get client_data "rating" (VNum 0))
      (dict_get client_data "total_spent" (VNum 0))
      (dict_get client_data "total_projects" (VNum 0))
    = Ok (payment_reliability ci)
  ∧ _estimate_communication (dict_get client_data "rating" (VNum 0))
      (dict_get client_data "reviews" (VNum 0)) = Ok (communication_score ci)
  ∧ rating_fraction (dict_get client_data "rating" (VNum 0))
    = Ok (project_success_rate ci)
  ∧ _identify_red_flags client_data = Ok (red_flags ci)
  ∧ _identify_green_flags client_data = Ok (green_flags ci)
  ∧ recommendation ci
    = _generate_client_recommendation (quality_score ci) (red_flags ci)
        (green_flags ci).
Proof.
  unfold research_client. cbv zeta.
  destruct (_calculate_quality_score _ _ _ _) as [q|e];
    cbn [mbind Result_bind]; [|discriminate].
  destruct (_estimate_payment_reliability _ _ _) as [pay|e];
    cbn [mbind Result_bind]; [|discriminate].
  destruct (_estimate_communication _ _) as [com|e];
    cbn [mbind Result_bind]; [|discriminate].
  destruct (rating_fraction _) as [suc|e];
    cbn [mbind Result_bind]; [|discriminate].
  destruct (_identify_red_flags _) as [red|e];
    cbn [mbind Result_bind]; [|discriminate].
  destruct (_identify_green_flags _) as [green|e];
    cbn [mbind Result_bind]; [|discriminate].
  intros [= <-]. cbn. repeat split; reflexivity.
Qed.

Lemma rating_fraction_range (rating : PyVal) (r f : Q) :
  py_num rating = Ok r → 0 <= r <= 5 → rating_fraction rating = Ok f →
  0 <= f <= 1.
Proof.
  intros Hr Hrange. unfold rating_fraction.
  destruct (truthy rating); [|intros [= <-]; lra].
  rewrite Hr. cbn [mbind Result_bind]. intros [= <-]. qdiv. lra.
Qed.

Lemma py_round3_quarter (x : Q) : 0.25 <= x → 0.25 <= py_round x 3.
Proof.
  intros H. apply (py_round_mono _ _ 3) in H.
  assert (E : py_round 0.25 3 == 0.25) by reflexivity.
  rewrite E in H. exact H.
Qed.

(** X14. For a client whose rating is a number in [0,5], every score of a
    returned research result is in range: quality in [0.25, 1], payment
    reliability, communication and project success rate in [0,1], and the
    communication score never exceeds the success rate. *)
Theorem client_scores_in_range (ci : ClientIntelligence) (r : Q) :
  research_client client_data = Ok ci →
  py_num (dict_get client_data "rating" (VNum 0)) = Ok r → 0 <= r <= 5 →
  0.25 <= quality_score ci <= 1
  ∧ 0 <= payment_reliability ci <= 1
  ∧ 0 <= communication_score ci <= 1
  ∧ 0 <= project_success_rate ci <= 1
  ∧ communication_score ci <= project_success_rate ci.
Proof.
  intros Hci Hr Hrange.
  destruct (research_client_inv ci Hci) as (Hq & Hpay & Hcom & Hsuc & _).
  pose proof (rating_fraction_range _ r _ Hr Hrange Hsuc) as Bsuc.
  set (rating := dict_get client_data "rating" (VNum 0)) in *.
  split; [|split; [|split; [|split]]].
  - unfold _calculate_quality_score in Hq. rewrite Hsuc in Hq.
    cbn [mbind Result_bind] in Hq.
    destruct (py_num (dict_get client_data "total_projects" _)) as [p|e];
      cbn [mbind Result_bind] in Hq; [|discriminate].
    destruct (py_num (dict_get client_data "total_spent" _)) as [sp|e];
      cbn [mbind Result_bind] in Hq; [|discriminate].
    destruct (py_num (dict_get client_data "reviews" _)) as [n|e];
      cbn [mbind Result_bind] in Hq; [|discriminate].
    injection Hq as <-.
    assert (Ht : 0.25 <= project_success_rate ci * 0.4
                   + (if Qlt_le_dec 50 p then 1.0 else if Qlt_le_dec 20 p then 0.8
                      else if Qlt_le_dec 5 p then 0.6 else 0.4) * 0.3
                   + (if Qlt_le_dec 50000 sp then 1.0
                      else if Qlt_le_dec 10000 sp then 0.8
                      else if Qlt_le_dec 1000 sp then 0.6 else 0.4) * 0.2
                   + (if Qlt_le_dec 50 n then 1.0 else if Qlt_le_dec 10 n then 0.7
                      else 0.5) * 0.1 <= 1).
    { destruct (Qlt_le_dec 50 p); [|destruct (Qlt_le_dec 20 p);
        [|destruct (Qlt_le_dec 5 p)]];
      (destruct (Qlt_le_dec 50000 sp); [|destruct (Qlt_le_dec 10000 sp);
        [|destruct (Qlt_le_dec 1000 sp)]]);
      (destruct (Qlt_le_dec 50 n); [|destruct (Qlt_le_dec 10 n)]); lra. }
    split; [apply py_round3_quarter|apply py_round3_unit]; lra.
  - unfold _estimate_payment_reliability in Hpay. rewrite Hsuc in Hpay.
    cbn [mbind Result_bind] in Hpay.
    destruct (py_num (dict_get client_data "total_projects" _)) as [p|e];
      cbn [mbind Result_bind] in Hpay; [|discriminate].
    injection Hpay as <-. apply py_round3_unit.
    destruct (Qlt_le_dec 20 p); [|destruct (Qlt_le_dec 5 p)]; lra.
  - unfold _estimate_communication in Hcom. rewrite Hsuc in Hcom.
    cbn [mbind Result_bind] in Hcom.
    destruct (py_num (dict_get client_data "reviews" _)) as [n|e];
      cbn [mbind Result_bind] in Hcom; [|discriminate].
    destruct (Qlt_le_dec 20 n); injection Hcom as <-; lra.
  - exact Bsuc.
  - unfold _estimate_communication in Hcom. rewrite Hsuc in Hcom.
    cbn [mbind Result_bind] in Hcom.
    destruct (py_num (dict_get client_data "reviews" _)) as [n|e];
      cbn [mbind Result_bind] in Hcom; [|discriminate].
    destruct (Qlt_le_dec 20 n); injection Hcom as <-; lra.
Qed.

Lemma red_flags_cases (red : list RedFlag) :
  _identify_red_flags client_data = Ok red →
  ∃ r, py_num (dict_get client_data "rating" (VNum 0)) = Ok r
     ∧ (length red <= 2)%nat
     ∧ (In LowClientRating red ↔ r < 3.5).
Proof.
  unfold _identify_red_flags. cbv zeta.
  destruct (py_num (dict_get client_data "rating" _)) as [r|e];
    cbn [mbind Result_bind]; [|discriminate].
  intros H. exists r. split; [reflexivity|]. revert H.
  destruct (Qlt_le_dec r 4.0) as [H4|H4];
  destruct (py_num (dict_get client_data "total_projects" _)) as [p|e];
  destruct (py_num (dict_get client_data "reviews" _)) as [n|e'];
    cbn [mbind Result_bind]; try discriminate;
  try destruct (Qlt_le_dec 5 n); try destruct (Qlt_le_dec 10 p);
    cbn [mbind Result_bind]; try discriminate;
  try destruct (Qlt_le_dec n 3); destruct (Qlt_le_dec r 3.5);
    cbn [mbind Result_bind app]; intros [= <-]; cbn [length In];
    (split; [try lia; lra|]); split; intros Hin;
    repeat match goal with H : _ ∨ _ |- _ => destruct H end;
    try discriminate; try contradiction; try lra; auto.
Qed.

(** X15. A research result never has more than two red flags, so the
    verdict is "high risk" exactly when the quality score is below 0.4;
    and a "highly recommended" client has no red flag and a quality score
    of at least 0.8. *)
Theorem client_verdict_follows_quality (ci : ClientIntelligence) :
  research_client client_data = Ok ci →
  (length (red_flags ci) <= 2)%nat
  ∧ (recommendation ci = HighRisk ↔ quality_score ci < 0.4)
  ∧ (recommendation ci = HighlyRecommended
     ↔ 0.8 <= quality_score ci ∧ red_flags ci = []).
Proof.
  intros Hci.
  destruct (research_client_inv ci Hci) as (_ & _ & _ & _ & Hred & _ & ->).
  destruct (red_flags_cases _ Hred) as (r & _ & Hlen & _).
  split; [exact Hlen|]. unfold _generate_client_recommendation.
  destruct (Qlt_le_dec (quality_score ci) 0.8) as [H8|H8];
  destruct (Qlt_le_dec (quality_score ci) 0.6) as [H6|H6];
  destruct (Qlt_le_dec (quality_score ci) 0.4) as [H4|H4];
  destruct (red_flags ci) as [|f1 [|f2 [|f3 rest]]]; cbn [length] in *;
    try lia; cbn;
    repeat split; intros; repeat match goal with H : _ ∧ _ |- _ => destruct H end;
    try discriminate; try lra; auto.
Qed.

(** X16. A client whose rating is below 3.5, which includes every client
    without a rating (the default rating 0), always gets the
    low-client-rating red flag and is never "highly recommended". *)
Theorem low_or_missing_rating_is_flagged (ci : ClientIntelligence) (r : Q) :
  research_client client_data = Ok ci →
  py_num (dict_get client_data "rating" (VNum 0)) = Ok r → r < 3.5 →
  In LowClientRating (red_flags ci) ∧ recommendation ci ≠ HighlyRecommended.
Proof.
  intros Hci Hr Hlow.
  destruct (research_client_inv ci Hci) as (_ & _ & _ & _ & Hred & _ & Hrec).
  destruct (red_flags_cases _ Hred) as (r' & Hr' & _ & Hflag).
  rewrite Hr in Hr'. injection Hr' as <-.
  assert (Hin : In LowClientRating (red_flags ci)) by (apply Hflag; exact Hlow).
  split; [exact Hin|]. rewrite Hrec. unfold _generate_client_recommendation.
  destruct (red_flags ci) as [|f rest]; [destruct Hin|].
  repeat match goal with
         | |- context [Qlt_le_dec ?a ?b] => destruct (Qlt_le_dec a b)
         | |- context [(?a <? ?b)%nat] => destruct (a <? b)%nat
         end; discriminate.
Qed.

(** X17. A rating that is present but [None] is accepted by the score
    computations (it counts as "no rating") yet makes [research_client]
    raise [TypeError], whatever the other fields are. *)
Theorem none_rating_raises :
  dict_get client_data "rating" (VNum 0) = VNone →
  rating_fraction (dict_get client_data "rating" (VNum 0)) = Ok 0.5
  ∧ research_client client_data = Raise TypeError.
Proof.
  intros Hnone. split; [rewrite Hnone; reflexivity|].
  unfold research_client. cbv zeta. rewrite Hnone.
  unfold _calculate_quality_score, _estimate_payment_reliability,
    _estimate_communication, _identify_red_flags.
  cbv zeta. rewrite Hnone.
  cbn [rating_fraction truthy py_num mbind Result_bind].
  destruct (dict_get client_data "total_projects" (VNum 0)) as [| | | |];
    cbn [py_num mbind Result_bind]; try reflexivity;
  destruct (dict_get client_data "total_spent" (VNum 0)) as [| | | |];
    cbn [py_num mbind Result_bind]; try reflexivity;
  destruct (dict_get client_data "reviews" (VNum 0)) as [| | | |];
    cbn [py_num mbind Result_bind]; try reflexivity;
  repeat match goal with
         | |- context [Qlt_le_dec ?a ?b] => destruct (Qlt_le_dec a b)
         end; reflexivity.
Qed.

End ClientResearch.

Lemma client_scores_in_range_witness :
  ∃ ci,
    research_client good_client = Ok ci
    ∧ 0.25 <= quality_score ci <= 1
    ∧ 0 <= payment_reliability ci <= 1
    ∧ 0 <= communication_score ci <= 1
    ∧ 0 <= project_success_rate ci <= 1
    ∧ communication_score ci <= project_success_rate ci.
Proof.
  eexists. split; [vm_compute; reflexivity|].
  apply (client_scores_in_range good_client _ 4.8);
    first [ vm_compute; reflexivity | split; vm_compute; discriminate ].
Defined.

Lemma client_verdict_follows_quality_witness :
  ∃ ci,
    research_client good_client = Ok ci
    ∧ (length (red_flags ci) <= 2)%nat
    ∧ (recommendation ci = HighRisk ↔ quality_score ci < 0.4)
    ∧ (recommendation ci = HighlyRecommended
       ↔ 0.8 <= quality_score ci ∧ red_flags ci = []).
Proof.
  eexists. split; [vm_compute; reflexivity|].
  apply (client_verdict_follows_quality good_client).
  vm_compute. reflexivity.
Defined.

Lemma low_or_missing_rating_is_flagged_witness :
  ∃ ci,
    research_client unrated_client = Ok ci
    ∧ In LowClientRating (red_flags ci)
    ∧ recommendation ci ≠ HighlyRecommended.
Proof.
  eexists. split; [vm_compute; reflexivity|].
  apply (low_or_missing_rating_is_flagged unrated_client _ 0);
    first [ vm_compute; reflexivity ].
Defined.

Lemma none_rating_raises_witness :
  rating_fraction (dict_get none_rating_client "rating" (VNum 0)) = Ok 0.5
  ∧ research_client none_rating_client = Raise TypeError.
Proof. apply (none_rating_raises none_rating_client). reflexivity. Defined.

Example research_good_client :
  ∃ ci,
    research_client good_client = Ok ci
    ∧ quality_score ci == 0.894
    ∧ red_flags ci = []
    ∧ green_flags ci = [ExcellentTrackRecord; HighSpendingClient; HighSatisfaction]
    ∧ recommendation ci = HighlyRecommended.
Proof.
  eexists. split; [vm_compute; reflexivity|].
  repeat split; reflexivity.
Qed.

(** ** The eligibility filter of the auto-bidding agent *)

Section EligibilityFilter.
Variable config : AutoBidConfig.

Lemma filter_eligible_spec (gigs out : list (gmap string PyVal)) :
  _filter_eligible_gigs config gigs = Ok out →
  List.Forall (λ gig, ∃ keep, eligible config gig = Ok keep) gigs
  ∧ out = List.filter
            (λ gig, match eligible config gig with
                    | Ok keep => keep
                    | Raise _ => false
                    end) gigs.
Proof.
  revert out. induction gigs as [|gig rest IH]; intros out;
    cbn [_filter_eligible_gigs List.filter].
  - intros [= <-]. split; [constructor|reflexivity].
  - destruct (eligible config gig) as [keep|e] eqn:Hk;
      cbn [mbind Result_bind]; [|discriminate].
    destruct (_filter_eligible_gigs config rest) as [tail|e];
      cbn [mbind Result_bind]; [|discriminate].
    intros [= <-]. destruct (IH tail eq_refl) as [Hall ->].
    split; [constructor; eauto|reflexivity].
Qed.

Lemma filter_eligible_all_kept (gigs : list (gmap string PyVal)) :
  List.Forall (λ gig, eligible config gig = Ok true) gigs →
  _filter_eligible_gigs config gigs = Ok gigs.
Proof.
  induction 1 as [|gig rest Hgig _ IH]; [reflexivity|].
  cbn [_filter_eligible_gigs]. rewrite Hgig, IH. reflexivity.
Qed.

Lemma eligible_budget (gig : gmap string PyVal) (b : Q) :
  eligible config gig = Ok true →
  dict_get gig "budget_max" (VNum 0) = VNum b → ¬ b == 0 →
  min_budget config <= b <= max_budget config.
Proof.
  unfold eligible. cbv zeta. intros H Hb Hnz. rewrite Hb in H.
  cbn [truthy py_num mbind Result_bind] in H.
  destruct (Qeq_bool b 0) eqn:E; [apply Qeq_bool_eq in E; contradiction|].
  cbn [negb] in H.
  destruct (Qlt_le_dec b (min_budget config)); [discriminate|].
  destruct (Qlt_le_dec (max_budget config) b); [discriminate|]. lra.
Qed.

Lemma filter_keeps_exactly_the_eligible_aux (gigs out : list (gmap string PyVal))
  (gig : gmap string PyVal) :
  _filter_eligible_gigs config gigs = Ok out →
  (In gig out → eligible config gig = Ok true)
  ∧ (In gig gigs → eligible config gig = Ok true → In gig out).
Proof.
  intros H. destruct (filter_eligible_spec gigs out H) as [Hall ->].
  rewrite filter_In. split.
  - intros [_ Hk]. destruct (eligible config gig) as [[|]|e]; congruence.
  - intros Hin Hk. split; [exact Hin|]. rewrite Hk. reflexivity.
Qed.

(** X18. When the eligibility filter returns, its result is the gigs that
    pass the checks, in their original order: a gig is in the result exactly
    when it is in the input and passes; and every gig of the result with a
    non-zero numeric budget_max has it within
    [min_budget, max_budget]. *)
Theorem filter_keeps_exactly_the_eligible (gigs out : list (gmap string PyVal)) :
  _filter_eligible_gigs config gigs = Ok out →
  sublist out gigs
  ∧ (∀ gig, In gig out ↔ In gig gigs ∧ eligible config gig = Ok true)
  ∧ (∀ gig b, In gig out →
       dict_get gig "budget_max" (VNum 0) = VNum b → ¬ b == 0 →
       min_budget config <= b <= max_budget config).
Proof.
  intros H. destruct (filter_eligible_spec gigs out H) as [Hall ->].
  assert (Hiff : ∀ gig,
            In gig (List.filter
                      (λ gig, match eligible config gig with
                              | Ok keep => keep
                              | Raise _ => false
                              end) gigs)
            ↔ In gig gigs ∧ eligible config gig = Ok true).
  { intros gig. rewrite filter_In. split; intros [Hin Hk]; split; auto.
    - destruct (eligible config gig) as [[|]|e]; congruence.
    - rewrite Hk. reflexivity. }
  split; [|split].
  - clear. induction gigs as [|gig rest IH]; cbn [List.filter]; [constructor|].
    destruct (match eligible config gig with Ok keep => keep | Raise _ => false end);
      [apply sublist_skip|apply sublist_cons]; exact IH.
  - exact Hiff.
  - intros gig b Hin. apply Hiff in Hin as [_ Hk]. apply eligible_budget, Hk.
Qed.

(** X19. The eligibility filter is idempotent: filtering its own result
    again changes nothing and raises nothing. *)
Theorem filter_is_idempotent (gigs out : list (gmap string PyVal)) :
  _filter_eligible_gigs config gigs = Ok out →
  _filter_eligible_gigs config out = Ok out.
Proof.
  intros H. apply filter_eligible_all_kept. apply List.Forall_forall.
  intros gig Hin.
  destruct (filter_keeps_exactly_the_eligible_aux gigs out gig H) as [Hk _].
  apply Hk, Hin.
Qed.

End EligibilityFilter.

Lemma sample_filter_result :
  _filter_eligible_gigs sample_config [upwork_gig; design_gig; fiverr_gig]
  = Ok [upwork_gig].
Proof.
  assert (H1 : eligible sample_config upwork_gig = Ok true)
    by (vm_compute; reflexivity).
  assert (H2 : eligible sample_config design_gig = Ok false)
    by (vm_compute; reflexivity).
  assert (H3 : eligible sample_config fiverr_gig = Ok false)
    by (vm_compute; reflexivity).
  cbn [_filter_eligible_gigs]. rewrite H1, H2, H3. reflexivity.
Qed.

Lemma filter_keeps_exactly_the_eligible_witness :
  sublist [upwork_gig] [upwork_gig; design_gig; fiverr_gig]
  ∧ (∀ gig, In gig [upwork_gig]
       ↔ In gig [upwork_gig; design_gig; fiverr_gig]
         ∧ eligible sample_config gig = Ok true).
Proof.
  destruct (filter_keeps_exactly_the_eligible sample_config
              [upwork_gig; design_gig; fiverr_gig] [upwork_gig]
              sample_filter_result)
    as (H1 & H2 & _).
  split; [exact H1|exact H2].
Defined.

Lemma filter_is_idempotent_witness :
  _filter_eligible_gigs sample_config [upwork_gig] = Ok [upwork_gig].
Proof.
  exact (filter_is_idempotent sample_config
           [upwork_gig; design_gig; fiverr_gig] [upwork_gig]
           sample_filter_result).
Defined.

(** ** Which skill lists can be scored *)

Section SkillListShapes.
Variable self : AIGigRecommender.t.
Variable gig : gmap string PyVal.




End SkillListShapes.

(** ** Monotonicity of the scores *)

Section Monotonicity.
Variable self : AIGigRecommender.t.

Lemma effective_hourly_zero (gig : gmap string PyVal) (b : Q) :
  b == 0 → effective_hourly gig b == 0.
Proof.
  intros H. unfold effective_hourly. destruct (py_eq_str _ _); [qdiv|]; lra.
Qed.

(** X21. The rate match is not monotone at the minimum rate: with
    0 < rate_min < rate_max, a gig whose effective hourly rate is exactly
    rate_min scores 0.8, and every gig whose effective rate lies strictly
    between 0.8 * rate_min and rate_min scores more than that. *)
Theorem just_below_minimum_outscores_minimum (g1 g2 : gmap string PyVal)
  (b1 b2 : Q) :
  dict_get g1 "budget_max" (VNum 0) = VNum b1 →
  dict_get g2 "budget_max" (VNum 0) = VNum b2 →
  0 < user_rate_min self → user_rate_min self < user_rate_max self →
  effective_hourly g2 b2 == user_rate_min self →
  0.8 * user_rate_min self < effective_hourly g1 b1 →
  effective_hourly g1 b1 < user_rate_min self →
  ∃ v1 v2,
    _calculate_rate_compatibility self g1 = Ok v1
    ∧ _calculate_rate_compatibility self g2 = Ok v2
    ∧ v2 == 0.8 ∧ v2 < v1 ∧ v1 < 1.
Proof.
  intros H1 H2 Hmin Hlt He2 Hlo Hhi.
  assert (Hnz1 : ¬ b1 == 0).
  { intros Hz. pose proof (effective_hourly_zero g1 b1 Hz). lra. }
  assert (Hnz2 : ¬ b2 == 0).
  { intros Hz. pose proof (effective_hourly_zero g2 b2 Hz). lra. }
  rewrite (rate_compatibility_budget self g1 b1 H1 Hnz1).
  rewrite (rate_compatibility_budget self g2 b2 H2 Hnz2). cbv zeta.
  set (e1 := effective_hourly g1 b1) in *.
  set (e2 := effective_hourly g2 b2) in *. clearbody e1 e2.
  destruct (Qlt_le_dec e1 (user_rate_min self)) as [_|Hbad]; [|lra].
  destruct (Qlt_le_dec e2 (user_rate_min self)) as [Hbad|_]; [lra|].
  destruct (Qlt_le_dec (user_rate_max self) e2) as [Hbad|_]; [lra|].
  rewrite !py_div_ok by lra. cbn [mbind Result_bind].
  eexists _, _. split; [reflexivity|]. split; [reflexivity|].
  assert (Hf : (e2 - user_rate_min self)
               / (user_rate_max self - user_rate_min self) == 0).
  { rewrite He2. unfold Qminus. rewrite Qplus_opp_r. apply Qmult_0_l. }
  assert (Hr1 : 0.8 < e1 / user_rate_min self)
    by (apply Qlt_shift_div_l; lra).
  assert (Hr2 : e1 / user_rate_min self < 1)
    by (apply Qlt_shift_div_r; lra).
  set (f := _ / (user_rate_max self - user_rate_min self)) in *. clearbody f.
  set (r := e1 / user_rate_min self) in *. clearbody r.
  qminmax. lra.
Qed.

Lemma competition_tier_bounds (c : Z) :
  (if (c <? 5)%Z then 0.3 else if (c <? 10)%Z then 0.2
   else if (c <? 20)%Z then 0.1 else 0.05)
  == competition_tier c.
Proof. reflexivity. Qed.

Lemma competition_tier_antitone (c1 c2 : Z) :
  (c2 <= c1)%Z → competition_tier c1 <= competition_tier c2.
Proof.
  intros H. unfold competition_tier.
  destruct (Z.ltb_spec c1 5), (Z.ltb_spec c1 10), (Z.ltb_spec c1 20),
    (Z.ltb_spec c2 5), (Z.ltb_spec c2 10), (Z.ltb_spec c2 20);
    try lia; lra.
Qed.

(** X22. The win probability never decreases when the skill match grows
    and never increases when the competition grows. *)
Theorem win_probability_monotone (gig : gmap string PyVal) (sm1 sm2 : Q)
  (c1 c2 : Z) :
  sm1 <= sm2 → (c2 <= c1)%Z →
  _predict_win_probability self gig sm1 c1
  <= _predict_win_probability self gig sm2 c2.
Proof.
  intros Hsm Hc. pose proof (competition_tier_antitone c1 c2 Hc) as Ht.
  unfold _predict_win_probability. cbv zeta.
  rewrite !competition_tier_bounds.
  set (t1 := competition_tier c1) in *. set (t2 := competition_tier c2) in *.
  set (e := Qmin 0.1 _). clearbody t1 t2 e. qminmax. lra.
Qed.

(** X23. The recommendation score never decreases when a sub-score grows
    (skill match, rate match, client quality, win probability) and never
    increases when the competition grows. *)
Theorem recommendation_score_monotone (sm1 sm2 rm1 rm2 cq1 cq2 w1 w2 : Q)
  (c1 c2 : Z) :
  sm1 <= sm2 → rm1 <= rm2 → cq1 <= cq2 → w1 <= w2 → (c2 <= c1)%Z →
  _calculate_recommendation_score self sm1 rm1 cq1 c1 w1
  <= _calculate_recommendation_score self sm2 rm2 cq2 c2 w2.
Proof.
  intros Hsm Hrm Hcq Hw Hc. unfold _calculate_recommendation_score. cbv zeta.
  apply py_round_mono.
  cbn [w_skill_match w_rate_match w_client_quality w_win_probability
       w_competition weights].
  rewrite Zle_Qle in Hc. revert Hc. qdiv. intros Hc. qminmax. lra.
Qed.

(** X24. For a fixed rating the client quality never decreases when the
    number of reviews grows. *)
Theorem client_quality_monotone_in_reviews (g1 g2 : gmap string PyVal)
  (r n1 n2 : Q) :
  g1 !! "client_rating" = Some (VNum r) →
  g2 !! "client_rating" = Some (VNum r) →
  g1 !! "client_reviews" = Some (VNum n1) →
  g2 !! "client_reviews" = Some (VNum n2) →
  n1 <= n2 →
  ∃ q1 q2,
    _estimate_client_quality self g1 = Ok q1
    ∧ _estimate_client_quality self g2 = Ok q2
    ∧ q1 <= q2.
Proof.
  intros R1 R2 N1 N2 Hle.
  eexists _, _. split; [apply (client_quality_value self g1 r n1 R1 N1)|].
  split; [apply (client_quality_value self g2 r n2 R2 N2)|].
  set (base := if Qeq_bool r 0 then _ else _). clearbody base.
  destruct (Qlt_le_dec 50 n1), (Qlt_le_dec 20 n1), (Qlt_le_dec n1 5),
    (Qlt_le_dec 50 n2), (Qlt_le_dec 20 n2), (Qlt_le_dec n2 5);
    try lra; qminmax; lra.
Qed.

End Monotonicity.

Lemma just_below_minimum_outscores_minimum_witness :
  ∃ v1 v2,
    _calculate_rate_compatibility sample_profile hourly_gig_45 = Ok v1
    ∧ _calculate_rate_compatibility sample_profile hourly_gig_50 = Ok v2
    ∧ v2 == 0.8 ∧ v2 < v1 ∧ v1 < 1.
Proof.
  apply (just_below_minimum_outscores_minimum sample_profile
           hourly_gig_45 hourly_gig_50 45 50);
    first [ reflexivity | vm_compute; reflexivity ].
Defined.

Lemma win_probability_monotone_witness :
  _predict_win_probability sample_profile sample_gig 0.5 12
  <= _predict_win_probability sample_profile sample_gig 0.9 3.
Proof.
  apply (win_probability_monotone sample_profile sample_gig 0.5 0.9 12 3);
    first [ lia | vm_compute; discriminate ].
Defined.

Lemma recommendation_score_monotone_witness :
  _calculate_recommendation_score sample_profile 0.5 0.5 0.5 30 0.3
  <= _calculate_recommendation_score sample_profile 0.9 0.92 0.8 4 0.7.
Proof.
  apply (recommendation_score_monotone sample_profile);
    first [ lia | vm_compute; discriminate ].
Defined.

Lemma client_quality_monotone_in_reviews_witness :
  ∃ q1 q2,
    _estimate_client_quality sample_profile few_reviews_client_gig = Ok q1
    ∧ _estimate_client_quality sample_profile well_rated_client_gig = Ok q2
    ∧ q1 <= q2.
Proof.
  apply (client_quality_monotone_in_reviews sample_profile
           few_reviews_client_gig well_rated_client_gig 4.5 3 10);
    first [ reflexivity | vm_compute; discriminate ].
Defined.
